(** * The TOTP modal of lemmy-ui

    A shallow embedding of [src/shared/components/common/totp-modal.tsx]:
    the six-cell digit grid, its input, key-up and paste handlers, the
    submission flow and the reconciliation of the [show] prop with the
    bootstrap modal widget.

    The component is modelled from its construction to its unmount.
    Strings are JavaScript strings (sequences of UTF-16 code units); the
    handlers are written in a small state monad over a record that holds
    the component instance together with the observable part of its
    environment (calls of the [onSubmit] prop, toasts, calls of the modal
    widget, the focused cell).  An [async] method is cut at its [await]s:
    each piece is a handler of its own, and the settling of the awaited
    promise is an event like any other, so that other events can come in
    between. *)

From Stdlib Require Import String Ascii.
From Stdlib Require Import List NArith ZArith Bool Arith Lia.
Import ListNotations.

(* ================================================================= *)
(** ** JavaScript strings and the numeric test used by the handlers *)

Module JS.

(** A string is its sequence of UTF-16 code units. *)
Definition str := list N.

(** A literal of the source file (ASCII only). *)
Fixpoint lit (s : string) : str :=
  match s with
  | EmptyString => []
  | String a r => N_of_ascii a :: lit r
  end.

Fixpoint eqb (s t : str) : bool :=
  match s, t with
  | [], [] => true
  | a :: s', b :: t' => N.eqb a b && eqb s' t'
  | _, _ => false
  end.

Definition null (s : str) : bool :=
  match s with [] => true | _ :: _ => false end.

Fixpoint takeWhile (p : N -> bool) (s : str) : str :=
  match s with
  | c :: r => if p c then c :: takeWhile p r else []
  | [] => []
  end.

Fixpoint dropWhile (p : N -> bool) (s : str) : str :=
  match s with
  | c :: r => if p c then dropWhile p r else s
  | [] => []
  end.

(** [String.prototype.slice(start, end)]: a negative index counts from the
    end, every index is clamped to [0 .. length]. *)
Definition relative_index (len k : Z) : Z :=
  if (k <? 0)%Z then Z.max (len + k) 0 else Z.min k len.

Definition slice (s : str) (start end_ : Z) : str :=
  let len := Z.of_nat (length s) in
  let from := relative_index len start in
  let to := relative_index len end_ in
  firstn (Z.to_nat (to - from)) (skipn (Z.to_nat from) s).

(** *** StringToNumber (ECMA-262, 7.1.4.1.1)

    [Number(s)] on a string, and the coercion done by the global [isNaN],
    yield [NaN] exactly when [s] is not a [StringNumericLiteral].  Only
    that is observed by the component, so the grammar is embedded as a
    recogniser and the numeric value is left out. *)

Definition isDecimalDigit (c : N) : bool := (48 <=? c)%N && (c <=? 57)%N.
Definition isBinaryDigit (c : N) : bool := (c =? 48)%N || (c =? 49)%N.
Definition isOctalDigit (c : N) : bool := (48 <=? c)%N && (c <=? 55)%N.
Definition isHexDigit (c : N) : bool :=
  isDecimalDigit c
  || ((97 <=? c)%N && (c <=? 102)%N)
  || ((65 <=? c)%N && (c <=? 70)%N).

(** WhiteSpace (TAB, VT, FF, ZWNBSP and the category Zs) and
    LineTerminator (LF, CR, LS, PS). *)
Definition isStrWhiteSpaceChar (c : N) : bool :=
  (c =? 9)%N || (c =? 11)%N || (c =? 12)%N || (c =? 65279)%N
  || (c =? 32)%N || (c =? 160)%N || (c =? 5760)%N
  || ((8192 <=? c)%N && (c <=? 8202)%N)
  || (c =? 8239)%N || (c =? 8287)%N || (c =? 12288)%N
  || (c =? 10)%N || (c =? 13)%N || (c =? 8232)%N || (c =? 8233)%N.

Definition trim (s : str) : str :=
  rev (dropWhile isStrWhiteSpaceChar (rev (dropWhile isStrWhiteSpaceChar s))).

Definition digits (p : N -> bool) (s : str) : bool :=
  negb (null s) && forallb p s.

Definition isSign (c : N) : bool := (c =? 43)%N || (c =? 45)%N.

Definition SignedInteger (s : str) : bool :=
  match s with
  | c :: r => if isSign c then digits isDecimalDigit r
              else digits isDecimalDigit s
  | [] => false
  end.

(** The optional exponent part, which must use up the rest of the text. *)
Definition ExponentPart_opt (s : str) : bool :=
  match s with
  | [] => true
  | c :: r => ((c =? 101)%N || (c =? 69)%N) && SignedInteger r
  end.

Definition StrUnsignedDecimalLiteral (s : str) : bool :=
  eqb s (lit "Infinity")
  || (let int := takeWhile isDecimalDigit s in
      match dropWhile isDecimalDigit s with
      | 46%N :: r =>
          let frac := takeWhile isDecimalDigit r in
          negb (null int && null frac)
          && ExponentPart_opt (dropWhile isDecimalDigit r)
      | rest => negb (null int) && ExponentPart_opt rest
      end).

Definition StrDecimalLiteral (s : str) : bool :=
  match s with
  | c :: r => if isSign c then StrUnsignedDecimalLiteral r
              else StrUnsignedDecimalLiteral s
  | [] => false
  end.

Definition NonDecimalIntegerLiteral (s : str) : bool :=
  match s with
  | 48%N :: c :: r =>
      (((c =? 98)%N || (c =? 66)%N) && digits isBinaryDigit r)
      || (((c =? 111)%N || (c =? 79)%N) && digits isOctalDigit r)
      || (((c =? 120)%N || (c =? 88)%N) && digits isHexDigit r)
  | _ => false
  end.

Definition StrNumericLiteral (s : str) : bool :=
  StrDecimalLiteral s || NonDecimalIntegerLiteral s.

Definition StringNumericLiteral (s : str) : bool :=
  let t := trim s in null t || StrNumericLiteral t.

(** [isNaN(s)] and [isNaN(Number(s))] for a string [s]. *)
Definition isNaN (s : str) : bool := negb (StringNumericLiteral s).

End JS.

(* ================================================================= *)
(** ** Props, state and the observable environment *)

Definition TOTP_LENGTH : nat := 6.

Inductive ModalType := Login | Remove | Generate.

(** [onSubmit] and [onClose] are callbacks of the parent: the calls of
    [onSubmit] are recorded in the world below, and the value its promise
    resolves to comes back as an event. *)
Record TotpModalProps := {
  type : ModalType;
  secretUrl : option JS.str;   (* [secretUrl?: string] *)
  show : option bool           (* [show?: boolean] *)
}.

Record TotpModalState := {
  totp : JS.str;
  qrCode : option JS.str       (* [qrCode?: string] *)
}.

(** Calls received by the bootstrap [Modal] held in [this.modal]. *)
Inductive ModalCall := ModalShow | ModalHide.

(** The component instance and what it does to its collaborators.
    [activeCell] is the cell of the grid that holds the focus; [awaiting]
    counts the activations of [handleSubmit] suspended at their [await].
    [modal_assigned] tells whether [this.modal] has been assigned: the
    field is [undefined] until the dynamic import of [componentDidMount]
    has resolved.  [imports_pending] counts the activations of [handleShow]
    suspended at the import of the QR module, and [getSVG_pending] lists
    the arguments of the calls of [getSVG] that have not settled yet. *)
Record World := {
  props : TotpModalProps;
  state : TotpModalState;
  activeCell : option nat;
  onSubmit_calls : list JS.str;
  awaiting : nat;
  toasts : list (JS.str * JS.str);
  modal_calls : list ModalCall;
  getSVG_calls : list (option JS.str);
  objectURLs : nat;
  modal_assigned : bool;
  imports_pending : nat;
  getSVG_pending : list (option JS.str)
}.

(** *** A state monad for the handlers *)

Definition M (A : Type) : Type := World -> A * World.

Definition ret {A} (a : A) : M A := fun w => (a, w).

Definition bind {A B} (m : M A) (k : A -> M B) : M B :=
  fun w => let (a, w') := m w in k a w'.

Definition exec {A} (m : M A) (w : World) : World := snd (m w).

Declare Scope handler_scope.
Delimit Scope handler_scope with handler.
Notation "x <- m ;; k" := (bind m (fun x => k))
  (at level 61, m at next level, right associativity) : handler_scope.
Notation "m ;; k" := (bind m (fun _ => k))
  (at level 61, right associativity) : handler_scope.
Open Scope handler_scope.

Definition getState : M TotpModalState := fun w => (state w, w).

Definition getProps : M TotpModalProps := fun w => (props w, w).

(** [setState] is Inferno's.  Called from an event handler or a promise
    continuation (no render pass running, empty update queue) it applies the
    update and re-renders before it returns, so that [modal.state] and the
    [disabled] attributes of the cells are current for the statements that
    follow the call. *)
Definition setState (f : TotpModalState -> TotpModalState) : M unit :=
  fun w => (tt, {| props := props w; state := f (state w);
                   activeCell := activeCell w;
                   onSubmit_calls := onSubmit_calls w;
                   awaiting := awaiting w; toasts := toasts w;
                   modal_calls := modal_calls w;
                   getSVG_calls := getSVG_calls w;
                   objectURLs := objectURLs w;
     modal_assigned := modal_assigned w;
     imports_pending := imports_pending w;
     getSVG_pending := getSVG_pending w |}).

(** [props.onSubmit(totp)]: the call is made, its promise is pending. *)
Definition onSubmit (code : JS.str) : M unit :=
  fun w => (tt, {| props := props w; state := state w;
                   activeCell := activeCell w;
                   onSubmit_calls := onSubmit_calls w ++ [code];
                   awaiting := S (awaiting w); toasts := toasts w;
                   modal_calls := modal_calls w;
                   getSVG_calls := getSVG_calls w;
                   objectURLs := objectURLs w;
     modal_assigned := modal_assigned w;
     imports_pending := imports_pending w;
     getSVG_pending := getSVG_pending w |}).

Definition toast (text color : JS.str) : M unit :=
  fun w => (tt, {| props := props w; state := state w;
                   activeCell := activeCell w;
                   onSubmit_calls := onSubmit_calls w;
                   awaiting := awaiting w;
                   toasts := toasts w ++ [(text, color)];
                   modal_calls := modal_calls w;
                   getSVG_calls := getSVG_calls w;
                   objectURLs := objectURLs w;
     modal_assigned := modal_assigned w;
     imports_pending := imports_pending w;
     getSVG_pending := getSVG_pending w |}).

(** How a method gives control back: it returns, or it throws the
    [TypeError] of a property read on [undefined]. *)
Inductive Exit := Normal | Throws_TypeError.

(** [this.modal.show()] and [this.modal.hide()]: the call reaches the widget
    if [this.modal] has been assigned, and throws otherwise. *)
Definition modal_call (c : ModalCall) : M Exit :=
  fun w =>
    if modal_assigned w then
      (Normal, {| props := props w; state := state w;
                  activeCell := activeCell w;
                  onSubmit_calls := onSubmit_calls w;
                  awaiting := awaiting w; toasts := toasts w;
                  modal_calls := modal_calls w ++ [c];
                  getSVG_calls := getSVG_calls w;
                  objectURLs := objectURLs w;
                  modal_assigned := modal_assigned w;
                  imports_pending := imports_pending w;
                  getSVG_pending := getSVG_pending w |})
    else (Throws_TypeError, w).

(** [this.modal = new Modal(this.modalDivRef.current!)] *)
Definition assign_modal : M unit :=
  fun w => (tt, {| props := props w; state := state w;
                   activeCell := activeCell w;
                   onSubmit_calls := onSubmit_calls w;
                   awaiting := awaiting w; toasts := toasts w;
                   modal_calls := modal_calls w;
                   getSVG_calls := getSVG_calls w;
                   objectURLs := objectURLs w;
                   modal_assigned := true;
                   imports_pending := imports_pending w;
                   getSVG_pending := getSVG_pending w |}).

Definition set_activeCell (a : option nat) (w : World) : World :=
  {| props := props w; state := state w; activeCell := a;
     onSubmit_calls := onSubmit_calls w; awaiting := awaiting w;
     toasts := toasts w; modal_calls := modal_calls w;
     getSVG_calls := getSVG_calls w; objectURLs := objectURLs w;
     modal_assigned := modal_assigned w;
     imports_pending := imports_pending w;
     getSVG_pending := getSVG_pending w |}.

(* ================================================================= *)
(** ** render: the digit-entry grid *)

(** The attributes of an [<input>] of the grid that depend on the state. *)
Record InputCell := {
  key : nat;
  value : JS.str;
  disabled : bool
}.

(** [Array.from(Array(TOTP_LENGTH).keys()).map(i => <input ... />)] *)
Definition render_cell (st : TotpModalState) (i : nat) : InputCell :=
  {| key := i;
     value := match nth_error (totp st) i with   (* [totp[i] ?? ""] *)
              | Some c => [c]
              | None => []
              end;
     disabled := negb (length (totp st) =? i) |}.

Definition render (st : TotpModalState) : list InputCell :=
  map (render_cell st) (seq 0 TOTP_LENGTH).

(** The cell that accepts input in the rendered grid, if there is one. *)
Definition enabled_cell (st : TotpModalState) : option nat :=
  option_map key (find (fun cell => negb (disabled cell)) (render st)).

(** [modal.inputRefs[j]?.focus()].  [inputRefs[j]] is the element rendered
    for cell [j]; there is none outside the grid, and [focus()] on a
    disabled element does nothing. *)
Definition focus (j : nat) : M unit :=
  fun w =>
    (tt, match nth_error (render (state w)) j with
         | Some cell => if disabled cell then w
                        else set_activeCell (Some j) w
         | None => w
         end).

(* ================================================================= *)
(** ** The handlers *)

Definition with_totp (t : JS.str) (prev : TotpModalState) : TotpModalState :=
  {| totp := t; qrCode := qrCode prev |}.

(** [handleSubmit] up to its [await]: the callback is invoked. *)
Definition handleSubmit (code : JS.str) : M unit :=
  onSubmit code.

(** [handleSubmit] from its [await] on, once the promise resolved to
    [successful]. *)
Definition handleSubmit_resume (successful : bool) : M unit :=
  if negb successful then
    setState (with_totp []) ;;
    focus 0
  else ret tt.

(** The handlers of DOM events return whether [event.preventDefault()] was
    called.  [i] is the cell the listener is bound to and [v] is
    [event.target.value]. *)
Definition handleInput (i : nat) (v : JS.str) : M bool :=
  if JS.isNaN v then ret true
  else
    setState (fun prev => with_totp (totp prev ++ v) prev) ;;
    focus (i + 1) ;;
    st <- getState ;;
    (if TOTP_LENGTH <=? length (totp st)
     then handleSubmit (totp st) else ret tt) ;;
    ret false.

(** [k] is [event.key]. *)
Definition handleKeyUp (i : nat) (k : JS.str) : M bool :=
  if JS.eqb k (JS.lit "Backspace") && (0 <? i) then
    setState (fun prev =>
      with_totp (JS.slice (totp prev) 0
                   (Z.of_nat (length (totp prev)) - 1)) prev) ;;
    focus (i - 1) ;;
    ret true
  else ret false.

(** [text] is [event.clipboardData.getData("text")]. *)
Definition handlePaste (text : JS.str) : M bool :=
  (if (TOTP_LENGTH <? length text) || JS.isNaN text then
     toast (JS.lit "Invalid TOTP: Must be string of six digits")
           (JS.lit "danger") ;;
     setState (with_totp [])
   else
     setState (with_totp text) ;;
     handleSubmit text) ;;
  ret true.

(** The test that guards the refusal branch of [handlePaste]. *)
Definition paste_refused (text : JS.str) : bool :=
  (TOTP_LENGTH <? length text) || JS.isNaN text.

Definition clearTotp : M unit :=
  setState (with_totp []).

(** Truthiness of an optional boolean: [!!x]. *)
Definition truthy (x : option bool) : bool :=
  match x with
  | Some b => b
  | None => false
  end.

(** [componentDidMount] from its [await import(...)] on, once the import
    has resolved: the widget is built and assigned to [this.modal], and
    shown if [show] is truthy by then. *)
Definition componentDidMount : M Exit :=
  assign_modal ;;
  p <- getProps ;;
  if truthy (show p) then modal_call ModalShow else ret Normal.

(** [this.modal] is read without a guard: an update that changes the
    truthiness of [show] before [this.modal] is assigned throws. *)
Definition componentDidUpdate (prevProps : TotpModalProps) : M Exit :=
  p <- getProps ;;
  if negb (Bool.eqb (truthy (show prevProps)) (truthy (show p))) then
    if truthy (show p) then modal_call ModalShow
    else modal_call ModalHide
  else ret Normal.

(** Where an activation of an [async] method stands when it gives control
    back: its promise is fulfilled or rejected, or it is suspended at an
    [await]. *)
Inductive Settlement := Fulfilled | Rejected | Suspended.

(** [await import("@shortcm/qr-image/lib/svg")]: the activation waits for
    the module. *)
Definition await_import : M unit :=
  fun w => (tt, {| props := props w; state := state w;
                   activeCell := activeCell w;
                   onSubmit_calls := onSubmit_calls w;
                   awaiting := awaiting w; toasts := toasts w;
                   modal_calls := modal_calls w;
                   getSVG_calls := getSVG_calls w;
                   objectURLs := objectURLs w;
                   modal_assigned := modal_assigned w;
                   imports_pending := S (imports_pending w);
                   getSVG_pending := getSVG_pending w |}).

(** [getSVG(this.props.secretUrl!)].  The assertion [!] is erased by the
    compiler: the argument is the prop as it is, a string or [undefined].
    The call is made and its promise is pending. *)
Definition call_getSVG (arg : option JS.str) : M unit :=
  fun w => (tt, {| props := props w; state := state w;
                   activeCell := activeCell w;
                   onSubmit_calls := onSubmit_calls w;
                   awaiting := awaiting w; toasts := toasts w;
                   modal_calls := modal_calls w;
                   getSVG_calls := getSVG_calls w ++ [arg];
                   objectURLs := objectURLs w;
                   modal_assigned := modal_assigned w;
                   imports_pending := imports_pending w;
                   getSVG_pending := getSVG_pending w ++ [arg] |}).

(** [handleShow] up to its first [await]. *)
Definition handleShow : M Settlement :=
  focus 0 ;;
  p <- getProps ;;
  match type p with
  | Generate => await_import ;; ret Suspended
  | _ => ret Fulfilled
  end.

(** [handleShow] from the import of the QR module on, up to the [await] of
    the generator's promise.  The import resolves or rejects; [this.props]
    is read now, not when the dialog was shown. *)
Definition handleShow_imported (resolved : bool) : M Settlement :=
  if resolved then
    p <- getProps ;;
    call_getSVG (secretUrl p) ;;
    ret Suspended
  else ret Rejected.

Section Collaborators.

(** The QR generator of [@shortcm/qr-image], as JavaScript runs it: handed
    a value, a string or [undefined], its promise resolves to the bytes of
    an SVG or is rejected ([None]).  Its declaration covers strings only;
    nothing is assumed here of what it does with any argument.
    [createObjectURL n blob] is the [n]-th URL that [URL.createObjectURL]
    hands out, for a blob of the given bytes. *)
Variable getSVG : option JS.str -> option (list N).
Variable createObjectURL : nat -> list N -> JS.str.

Definition call_createObjectURL (blob : list N) : M JS.str :=
  fun w => (createObjectURL (objectURLs w) blob,
            {| props := props w; state := state w;
               activeCell := activeCell w;
               onSubmit_calls := onSubmit_calls w;
               awaiting := awaiting w; toasts := toasts w;
               modal_calls := modal_calls w;
               getSVG_calls := getSVG_calls w;
               objectURLs := S (objectURLs w);
               modal_assigned := modal_assigned w;
               imports_pending := imports_pending w;
               getSVG_pending := getSVG_pending w |}).

(** [handleShow] from the [await] of [getSVG(arg)] on, once that promise
    has settled. *)
Definition handleShow_settled (arg : option JS.str) : M Settlement :=
  match getSVG arg with
  | Some buffer =>
      url <- call_createObjectURL buffer ;;
      setState (fun prev => {| totp := totp prev; qrCode := Some url |}) ;;
      ret Fulfilled
  | None => ret Rejected
  end.

(** *** The component as a transition system *)

Inductive Event :=
| Input (i : nat) (v : JS.str)          (* [onInput] of cell [i] *)
| KeyUp (i : nat) (k : JS.str)          (* [onKeyUp] of cell [i] *)
| Paste (text : JS.str)                 (* [onPaste] of any cell *)
| Settled (successful : bool)           (* a promise of [onSubmit] resolves *)
| Shown                                 (* [shown.bs.modal] *)
| Hidden                                (* [hidden.bs.modal] *)
| Update (next : TotpModalProps)        (* the parent renders new props *)
| Imported                              (* the import of the widget resolves *)
| QrImported (resolved : bool)          (* an import of the QR module settles *)
| SvgSettled (k : nat).                 (* the [k]-th pending [getSVG] settles *)

Definition set_props (p : TotpModalProps) (w : World) : World :=
  {| props := p; state := state w; activeCell := activeCell w;
     onSubmit_calls := onSubmit_calls w; awaiting := awaiting w;
     toasts := toasts w; modal_calls := modal_calls w;
     getSVG_calls := getSVG_calls w; objectURLs := objectURLs w;
     modal_assigned := modal_assigned w;
     imports_pending := imports_pending w;
     getSVG_pending := getSVG_pending w |}.

Definition settle_one (w : World) : World :=
  {| props := props w; state := state w; activeCell := activeCell w;
     onSubmit_calls := onSubmit_calls w; awaiting := pred (awaiting w);
     toasts := toasts w; modal_calls := modal_calls w;
     getSVG_calls := getSVG_calls w; objectURLs := objectURLs w;
     modal_assigned := modal_assigned w;
     imports_pending := imports_pending w;
     getSVG_pending := getSVG_pending w |}.

Definition import_one (w : World) : World :=
  {| props := props w; state := state w; activeCell := activeCell w;
     onSubmit_calls := onSubmit_calls w; awaiting := awaiting w;
     toasts := toasts w; modal_calls := modal_calls w;
     getSVG_calls := getSVG_calls w; objectURLs := objectURLs w;
     modal_assigned := modal_assigned w;
     imports_pending := pred (imports_pending w);
     getSVG_pending := getSVG_pending w |}.

Definition svg_one (k : nat) (w : World) : World :=
  {| props := props w; state := state w; activeCell := activeCell w;
     onSubmit_calls := onSubmit_calls w; awaiting := awaiting w;
     toasts := toasts w; modal_calls := modal_calls w;
     getSVG_calls := getSVG_calls w; objectURLs := objectURLs w;
     modal_assigned := modal_assigned w;
     imports_pending := imports_pending w;
     getSVG_pending :=
       firstn k (getSVG_pending w) ++ skipn (S k) (getSVG_pending w) |}.

(** What the browser can deliver.  An input event reaches a cell only if
    the cell is rendered and not disabled, and [maxLength={1}] bounds the
    value typed into the (empty) cell; a promise settles only if an
    activation is awaiting it; the widget is imported once.  An update
    whose [componentDidUpdate] throws leaves the new props in place. *)
Definition dispatch (e : Event) (w : World) : option World :=
  match e with
  | Input i v =>
      match nth_error (render (state w)) i with
      | Some cell =>
          if negb (disabled cell) && (length v <=? 1)
          then Some (exec (handleInput i v) w) else None
      | None => None
      end
  | KeyUp i k =>
      if i <? TOTP_LENGTH then Some (exec (handleKeyUp i k) w) else None
  | Paste text => Some (exec (handlePaste text) w)
  | Settled b =>
      if 0 <? awaiting w
      then Some (exec (handleSubmit_resume b) (settle_one w)) else None
  | Shown => Some (exec handleShow w)
  | Hidden => Some (exec clearTotp w)
  | Update next =>
      Some (exec (componentDidUpdate (props w)) (set_props next w))
  | Imported =>
      if modal_assigned w then None else Some (exec componentDidMount w)
  | QrImported resolved =>
      if 0 <? imports_pending w
      then Some (exec (handleShow_imported resolved) (import_one w)) else None
  | SvgSettled k =>
      match nth_error (getSVG_pending w) k with
      | Some arg => Some (exec (handleShow_settled arg) (svg_one k w))
      | None => None
      end
  end.

(** The instance as the constructor and the first render leave it, with the
    import of the widget under way. *)
Definition created (p : TotpModalProps) : World :=
  {| props := p; state := {| totp := []; qrCode := None |};
     activeCell := None; onSubmit_calls := []; awaiting := 0;
     toasts := []; modal_calls := []; getSVG_calls := [];
     objectURLs := 0; modal_assigned := false; imports_pending := 0;
     getSVG_pending := [] |}.

(** The instance once [componentDidMount] has completed. *)
Definition mounted (p : TotpModalProps) : World :=
  exec componentDidMount (created p).

Inductive reachable : World -> Prop :=
| reachable_created : forall p, reachable (created p)
| reachable_step : forall w e w',
    reachable w -> dispatch e w = Some w' -> reachable w'.

End Collaborators.

(** Typing a character: the keystroke lands in the enabled cell. *)
Definition keystroke (c : N) : M unit :=
  st <- getState ;;
  match enabled_cell st with
  | Some i => handleInput i [c] ;; ret tt
  | None => ret tt
  end.

Fixpoint keystrokes (cs : list N) : M unit :=
  match cs with
  | [] => ret tt
  | c :: r => keystroke c ;; keystrokes r
  end.

(* ================================================================= *)
(** ** The widget, the image source and the life cycle *)

(** What the component last asked of the widget: [true] after a call of
    [show()], [false] after a call of [hide()] and as long as no call was
    made (the widget is built hidden). *)
Definition request_after (asked : bool) (c : ModalCall) : bool :=
  match c with
  | ModalShow => true
  | ModalHide => false
  end.

Definition show_requested (calls : list ModalCall) : bool :=
  fold_left request_after calls false.

Definition other_call (c : ModalCall) : ModalCall :=
  match c with
  | ModalShow => ModalHide
  | ModalHide => ModalShow
  end.

(** The calls are [next], then the other one, then [next] again, ... *)
Fixpoint alternates (next : ModalCall) (calls : list ModalCall) : Prop :=
  match calls with
  | [] => True
  | c :: r => c = next /\ alternates (other_call next) r
  end.

(** Two worlds with the same props and the same widget, and two worlds with
    the same image source and the same calls behind it. *)
Definition same_widget (w w' : World) : Prop :=
  props w' = props w /\ modal_calls w' = modal_calls w /\
  modal_assigned w' = modal_assigned w.

Definition same_image (w w' : World) : Prop :=
  qrCode (state w') = qrCode (state w) /\
  getSVG_calls w' = getSVG_calls w /\
  objectURLs w' = objectURLs w /\
  getSVG_pending w' = getSVG_pending w.

(** The listeners of the root element of the dialog.  [this.handleShow] and
    [this.clearTotp] are bound once, in the constructor, so each is one
    function object for the whole life of the instance.  The root element
    is rendered for as long as the instance is mounted: [modalDivRef.current]
    is there in [componentDidMount] and in [componentWillUnmount]. *)
Inductive DomEvent := shown_bs_modal | hidden_bs_modal.

Inductive Listener := this_handleShow | this_clearTotp.

Definition same_listener (t : DomEvent) (l : Listener)
    (r : DomEvent * Listener) : bool :=
  match t, fst r with
  | shown_bs_modal, shown_bs_modal | hidden_bs_modal, hidden_bs_modal =>
      match l, snd r with
      | this_handleShow, this_handleShow | this_clearTotp, this_clearTotp => true
      | _, _ => false
      end
  | _, _ => false
  end.

(** [addEventListener] does not register a listener twice for one event;
    [removeEventListener] drops the registration if there is one. *)
Definition addEventListener (t : DomEvent) (l : Listener)
    (ls : list (DomEvent * Listener)) : list (DomEvent * Listener) :=
  if existsb (same_listener t l) ls then ls else ls ++ [(t, l)].

Definition removeEventListener (t : DomEvent) (l : Listener)
    (ls : list (DomEvent * Listener)) : list (DomEvent * Listener) :=
  filter (fun r => negb (same_listener t l r)) ls.

(** The instance with what mounting and unmounting act on besides the
    world: the listeners of the root element and the calls of the widget's
    [dispose]. *)
Record Instance := {
  world : World;
  listeners : list (DomEvent * Listener);
  dispose_calls : nat
}.

(** Whether [this.modal] has been assigned. *)
Definition modal_built (c : Instance) : bool := modal_assigned (world c).

(** A method returns, or throws a [TypeError] in the given state. *)
Inductive Completion :=
| Returns (c : Instance)
| TypeError (c : Instance).

(** The instance as the constructor and the first render leave it: the
    code-in-progress is empty, no listener is registered on the new root
    element and [this.modal] is not assigned. *)
Definition constructed (p : TotpModalProps) : Instance :=
  {| world := created p;
     listeners := [];
     dispose_calls := 0 |}.

(** [componentDidMount] up to its [await import(...)]. *)
Definition componentDidMount_listen (c : Instance) : Instance :=
  {| world := world c;
     listeners :=
       addEventListener hidden_bs_modal this_clearTotp
         (addEventListener shown_bs_modal this_handleShow (listeners c));
     dispose_calls := dispose_calls c |}.

(** [componentDidMount] from the [await] on: the widget is built and, if
    [show] is truthy by then, shown. *)
Definition componentDidMount_resume (c : Instance) : Instance :=
  {| world := exec componentDidMount (world c);
     listeners := listeners c;
     dispose_calls := dispose_calls c |}.

(** [this.modal.dispose()] reads a property of [undefined] when the widget
    has not been built. *)
Definition componentWillUnmount (c : Instance) : Completion :=
  let c1 :=
    {| world := world c;
       listeners :=
         removeEventListener hidden_bs_modal this_clearTotp
           (removeEventListener shown_bs_modal this_handleShow (listeners c));
       dispose_calls := dispose_calls c |} in
  if modal_built c1 then
    Returns {| world := world c1; listeners := listeners c1;
               dispose_calls := S (dispose_calls c1) |}
  else TypeError c1.

(* ================================================================= *)
(** ** Facts about the numeric test *)

Example isNaN_six_digits : JS.isNaN (JS.lit "123456") = false.
Proof. reflexivity. Qed.

Example isNaN_letter : JS.isNaN (JS.lit "12a456") = true.
Proof. reflexivity. Qed.

Example isNaN_inner_space : JS.isNaN (JS.lit "1 2") = true.
Proof. reflexivity. Qed.

Example isNaN_exponent : JS.isNaN (JS.lit "1e3") = false.
Proof. reflexivity. Qed.

Example isNaN_hex : JS.isNaN (JS.lit "0x1F") = false.
Proof. reflexivity. Qed.

Example isNaN_blank : JS.isNaN (JS.lit " ") = false.
Proof. reflexivity. Qed.

Lemma digit_not_space c :
  JS.isDecimalDigit c = true -> JS.isStrWhiteSpaceChar c = false.
Proof.
  unfold JS.isDecimalDigit, JS.isStrWhiteSpaceChar.
  rewrite andb_true_iff, !N.leb_le. intros [Hlo Hhi].
  repeat match goal with
         | |- (_ || _) = false => apply orb_false_intro
         | |- (_ =? _)%N = false => apply N.eqb_neq; lia
         | |- (_ && _) = false => apply andb_false_intro1, N.leb_gt; lia
         end.
Qed.

Lemma digit_not_sign c : JS.isDecimalDigit c = true -> JS.isSign c = false.
Proof.
  unfold JS.isDecimalDigit, JS.isSign.
  rewrite andb_true_iff, !N.leb_le. intros [Hlo Hhi].
  apply orb_false_intro; apply N.eqb_neq; lia.
Qed.

Lemma dropWhile_space_digits s :
  forallb JS.isDecimalDigit s = true ->
  JS.dropWhile JS.isStrWhiteSpaceChar s = s.
Proof.
  destruct s as [|c r]; simpl; [reflexivity|].
  rewrite andb_true_iff. intros [Hc _].
  now rewrite (digit_not_space _ Hc).
Qed.

Lemma trim_digits s : forallb JS.isDecimalDigit s = true -> JS.trim s = s.
Proof.
  intros H. unfold JS.trim.
  rewrite (dropWhile_space_digits _ H), dropWhile_space_digits.
  - apply rev_involutive.
  - rewrite forallb_forall in *. intros c Hc. apply H. now apply in_rev.
Qed.

Lemma takeWhile_all p s : forallb p s = true -> JS.takeWhile p s = s.
Proof.
  induction s as [|c r IH]; simpl; [reflexivity|].
  rewrite andb_true_iff. intros [Hc Hr]. now rewrite Hc, IH.
Qed.

Lemma dropWhile_all p s : forallb p s = true -> JS.dropWhile p s = [].
Proof.
  induction s as [|c r IH]; simpl; [reflexivity|].
  rewrite andb_true_iff. intros [Hc Hr]. now rewrite Hc, IH.
Qed.

(** A string of decimal digits (the empty one included) is never [NaN]. *)
Lemma isNaN_digits s : forallb JS.isDecimalDigit s = true -> JS.isNaN s = false.
Proof.
  intros H. unfold JS.isNaN, JS.StringNumericLiteral.
  rewrite (trim_digits _ H).
  destruct s as [|c r]; [reflexivity|].
  assert (Hc : JS.isDecimalDigit c = true)
    by (simpl in H; now apply andb_true_iff in H).
  cbn [JS.null orb]. unfold JS.StrNumericLiteral, JS.StrDecimalLiteral.
  rewrite (digit_not_sign _ Hc). unfold JS.StrUnsignedDecimalLiteral.
  rewrite (takeWhile_all _ _ H), (dropWhile_all _ _ H).
  cbn [JS.null negb andb JS.ExponentPart_opt].
  now rewrite orb_true_r.
Qed.

(* ================================================================= *)
(** ** The rendered grid *)

Lemma render_length st : length (render st) = TOTP_LENGTH.
Proof. reflexivity. Qed.

Lemma nth_error_render st i :
  i < TOTP_LENGTH -> nth_error (render st) i = Some (render_cell st i).
Proof.
  unfold TOTP_LENGTH. intros Hi.
  do 6 (destruct i as [|i]; [reflexivity|]). lia.
Qed.

Lemma nth_error_render_inv st i cell :
  nth_error (render st) i = Some cell ->
  i < TOTP_LENGTH /\ cell = render_cell st i.
Proof.
  unfold TOTP_LENGTH.
  do 6 (destruct i as [|i];
        [cbn; intros [= <-]; split; [lia | reflexivity]|]).
  cbn. destruct i; discriminate.
Qed.

Lemma enabled_cell_next st :
  length (totp st) < TOTP_LENGTH -> enabled_cell st = Some (length (totp st)).
Proof.
  unfold TOTP_LENGTH, enabled_cell, render, render_cell.
  generalize (length (totp st)). intros n Hlen.
  do 6 (destruct n as [|n]; [reflexivity|]). lia.
Qed.

Lemma enabled_cell_full st :
  TOTP_LENGTH <= length (totp st) -> enabled_cell st = None.
Proof.
  unfold TOTP_LENGTH, enabled_cell, render, render_cell.
  generalize (length (totp st)). intros n Hlen.
  do 6 (destruct n as [|n]; [lia|]). reflexivity.
Qed.

(** C7.  The grid has six cells, and cell [i] of the rendered grid is
    enabled exactly when the length of the code-in-progress is [i]; so all
    the other cells are disabled. *)
Theorem render_enabled_iff_next (st : TotpModalState) :
  length (render st) = 6 /\
  forall i, i < 6 ->
    exists cell,
      nth_error (render st) i = Some cell /\
      key cell = i /\
      (disabled cell = false <-> length (totp st) = i).
Proof.
  split; [apply render_length|]. intros i Hi.
  exists (render_cell st i). split; [now apply nth_error_render|].
  split; [reflexivity|]. cbn.
  rewrite negb_false_iff. apply Nat.eqb_eq.
Qed.

Lemma render_enabled_iff_next_witness :
  let st := {| totp := JS.lit "12"; qrCode := None |} in
  2 < 6 /\
  exists cell,
    nth_error (render st) 2 = Some cell /\
    key cell = 2 /\
    (disabled cell = false <-> length (totp st) = 2).
Proof.
  intros st. split; [lia|].
  exact (proj2 (render_enabled_iff_next st) 2 ltac:(lia)).
Defined.

(* ================================================================= *)
(** ** The input handler *)

Ltac focus_cases :=
  repeat match goal with
         | |- context [match nth_error (render ?st) ?j with _ => _ end] =>
             destruct (nth_error (render st) j) as [[? ? []]|]
         end.

(** Moving the focus touches nothing but [activeCell]. *)
Lemma focus_frame j w :
  let w' := snd (focus j w) in
  props w' = props w /\ state w' = state w /\
  getSVG_calls w' = getSVG_calls w /\ objectURLs w' = objectURLs w.
Proof. unfold focus. cbn -[render]. focus_cases; auto. Qed.

(** Moving the focus changes the world in [activeCell] at most. *)
Lemma focus_keeps j w : exists a, snd (focus j w) = set_activeCell a w.
Proof.
  unfold focus. cbn -[render].
  focus_cases; (exists (Some j); reflexivity)
               || (exists (activeCell w); now destruct w).
Qed.

(** What an accepted value does: it is appended, and the code is submitted
    when it has reached [TOTP_LENGTH]. *)
Lemma handleInput_accept i v w :
  JS.isNaN v = false ->
  let code := totp (state w) ++ v in
  let w' := exec (handleInput i v) w in
  state w' = with_totp code (state w) /\
  onSubmit_calls w' =
    (if TOTP_LENGTH <=? length code
     then onSubmit_calls w ++ [code] else onSubmit_calls w) /\
  awaiting w' =
    (if TOTP_LENGTH <=? length code then S (awaiting w) else awaiting w) /\
  toasts w' = toasts w /\
  modal_calls w' = modal_calls w /\
  props w' = props w.
Proof.
  intros Hv code w'. subst w'. unfold handleInput. rewrite Hv.
  unfold exec, bind, setState, focus, getState, handleSubmit, onSubmit, ret.
  cbn -[render TOTP_LENGTH Nat.leb]. fold code.
  focus_cases; cbn -[TOTP_LENGTH Nat.leb]; fold code;
    destruct (TOTP_LENGTH <=? length code); cbn; auto 10.
Qed.

(** What a rejected value does: nothing, but for [preventDefault]. *)
Lemma handleInput_reject i v w :
  JS.isNaN v = true -> handleInput i v w = (true, w).
Proof. intros Hv. unfold handleInput. now rewrite Hv. Qed.

Lemma keystroke_digit c w :
  JS.isDecimalDigit c = true ->
  length (totp (state w)) < TOTP_LENGTH ->
  let code := totp (state w) ++ [c] in
  let w' := exec (keystroke c) w in
  totp (state w') = code /\
  onSubmit_calls w' =
    (if TOTP_LENGTH <=? length code
     then onSubmit_calls w ++ [code] else onSubmit_calls w) /\
  awaiting w' =
    (if TOTP_LENGTH <=? length code then S (awaiting w) else awaiting w).
Proof.
  intros Hc Hlen code w'. subst w'.
  assert (Hnan : JS.isNaN [c] = false)
    by (apply isNaN_digits; simpl; now rewrite Hc).
  destruct (handleInput_accept (length (totp (state w))) [c] w Hnan)
    as (Hst & Hcalls & Haw & _).
  unfold keystroke, exec, bind, getState in *. cbn [fst snd] in *.
  rewrite (enabled_cell_next _ Hlen).
  destruct (handleInput (length (totp (state w))) [c] w) as [b w1].
  cbn [fst snd ret] in *. fold code in Hst, Hcalls, Haw.
  rewrite Hst. auto.
Qed.

(** Filling the grid from any partial code: the only call of [onSubmit] is
    made by the keystroke that completes the code. *)
Lemma keystrokes_fill cs : forall w,
  cs <> [] ->
  forallb JS.isDecimalDigit cs = true ->
  length (totp (state w)) + length cs = TOTP_LENGTH ->
  let w' := exec (keystrokes cs) w in
  totp (state w') = totp (state w) ++ cs /\
  onSubmit_calls w' = onSubmit_calls w ++ [totp (state w) ++ cs] /\
  awaiting w' = S (awaiting w).
Proof.
  induction cs as [|c r IH]; intros w Hne Hdig Hlen; [congruence|].
  simpl in Hdig. apply andb_true_iff in Hdig as [Hc Hr].
  simpl in Hlen.
  assert (Hlt : length (totp (state w)) < TOTP_LENGTH) by lia.
  destruct (keystroke_digit c w Hc Hlt) as (Ht & Hcalls & Haw).
  cbn [keystrokes]. unfold exec, bind in *.
  destruct (keystroke c w) as [u w1]. cbn [snd] in *.
  rewrite length_app in Hcalls, Haw. cbn [length] in Hcalls, Haw.
  destruct r as [|c' r'].
  - cbn [keystrokes ret snd].
    replace (TOTP_LENGTH <=? length (totp (state w)) + 1) with true
      in Hcalls, Haw by (symmetry; apply Nat.leb_le; simpl in Hlen; lia).
    auto.
  - replace (TOTP_LENGTH <=? length (totp (state w)) + 1) with false
      in Hcalls, Haw by (symmetry; apply Nat.leb_gt; simpl in Hlen; lia).
    destruct (IH w1) as (Ht' & Hcalls' & Haw'); try easy.
    { rewrite Ht, length_app. simpl in *. lia. }
    rewrite Ht', Hcalls', Haw', Ht, Hcalls, Haw, <- app_assoc. auto.
Qed.

(** C1.  Six decimal digits typed one after the other into the empty grid,
    each into the cell that is enabled at that moment, make exactly one
    call of [onSubmit]; its argument is the six digits in the order typed. *)
Theorem six_keystrokes_submit_once (w : World) (ds : list N) :
  totp (state w) = [] ->
  length ds = 6 ->
  forallb JS.isDecimalDigit ds = true ->
  let w' := exec (keystrokes ds) w in
  onSubmit_calls w' = onSubmit_calls w ++ [ds] /\
  totp (state w') = ds.
Proof.
  intros Hempty Hlen Hdig w'. subst w'.
  destruct (keystrokes_fill ds w) as (Ht & Hcalls & _); auto.
  - intros ->. discriminate.
  - rewrite Hempty. exact Hlen.
  - rewrite Hempty in *. auto.
Qed.

Lemma six_keystrokes_submit_once_witness :
  let w := mounted {| type := Login; secretUrl := None; show := Some true |} in
  let ds := JS.lit "492817" in
  totp (state w) = [] /\
  length ds = 6 /\
  forallb JS.isDecimalDigit ds = true /\
  onSubmit_calls (exec (keystrokes ds) w) = onSubmit_calls w ++ [ds] /\
  totp (state (exec (keystrokes ds) w)) = ds.
Proof.
  intros w ds.
  split; [reflexivity|]. split; [reflexivity|]. split; [reflexivity|].
  apply (six_keystrokes_submit_once w ds); reflexivity.
Defined.

(** C5, at the input where the code departs from it.  A blank is not a
    decimal digit, yet [isNaN(" ")] is false ([Number(" ")] is [0]): typed
    into any cell, it is appended to the code-in-progress. *)
Theorem handleInput_blank_is_appended :
  JS.isDecimalDigit 32 = false /\
  forall i w,
    handleInput i (JS.lit " ") w
    = (false, exec (handleInput i (JS.lit " ")) w) /\
    totp (state (exec (handleInput i (JS.lit " ")) w))
    = totp (state w) ++ JS.lit " ".
Proof.
  split; [reflexivity|]. intros i w.
  destruct (handleInput_accept i (JS.lit " ") w eq_refl) as (Hst & _).
  split; [|now rewrite Hst].
  unfold handleInput, exec, bind, setState, focus, getState, handleSubmit,
    onSubmit, ret.
  cbn -[render TOTP_LENGTH Nat.leb].
  now destruct (TOTP_LENGTH <=? _).
Qed.

(** The characters that [handleInput] does reject leave the world as it is:
    no state change, no toast, no call. *)
Lemma handleInput_reject_silent i v w :
  JS.isNaN v = true ->
  let w' := exec (handleInput i v) w in
  state w' = state w /\ toasts w' = toasts w /\
  onSubmit_calls w' = onSubmit_calls w /\ activeCell w' = activeCell w.
Proof.
  intros Hv. unfold exec. rewrite (handleInput_reject i v w Hv). cbn. auto.
Qed.

(* ================================================================= *)
(** ** The paste handler *)

Lemma handlePaste_refused text w :
  paste_refused text = true ->
  let w' := exec (handlePaste text) w in
  totp (state w') = [] /\
  onSubmit_calls w' = onSubmit_calls w /\
  awaiting w' = awaiting w /\
  toasts w' = toasts w ++ [(JS.lit "Invalid TOTP: Must be string of six digits",
                            JS.lit "danger")].
Proof.
  unfold paste_refused. intros H. unfold handlePaste. rewrite H.
  cbn. auto.
Qed.

Lemma handlePaste_accepted text w :
  paste_refused text = false ->
  let w' := exec (handlePaste text) w in
  totp (state w') = text /\
  onSubmit_calls w' = onSubmit_calls w ++ [text] /\
  awaiting w' = S (awaiting w) /\
  toasts w' = toasts w /\
  qrCode (state w') = qrCode (state w) /\
  activeCell w' = activeCell w.
Proof.
  unfold paste_refused. intros H. unfold handlePaste. rewrite H.
  cbn. auto 10.
Qed.

(** C2, at an input where the code departs from it.  The text [1e3] holds a
    character that is no decimal digit, but [Number("1e3")] is [1000]: the
    paste is accepted, submitted, and no warning is shown. *)
Theorem handlePaste_exponent_is_submitted :
  forallb JS.isDecimalDigit (JS.lit "1e3") = false /\
  forall w,
    let w' := exec (handlePaste (JS.lit "1e3")) w in
    onSubmit_calls w' = onSubmit_calls w ++ [JS.lit "1e3"] /\
    toasts w' = toasts w /\
    totp (state w') = JS.lit "1e3".
Proof.
  split; [reflexivity|]. intros w w'. subst w'.
  destruct (handlePaste_accepted (JS.lit "1e3") w eq_refl)
    as (Ht & Hc & _ & Hto & _).
  auto.
Qed.

(** C3.  A pasted text of at most six code units that is numeric (made of
    decimal digits or, more generally, let through by the numeric test of
    the handler) becomes the code-in-progress, whatever the code was, and is
    handed to [onSubmit] in exactly one call, also when it is shorter than
    six. *)
Theorem handlePaste_valid_is_submitted (text : JS.str) (w : World) :
  length text <= 6 ->
  forallb JS.isDecimalDigit text = true \/ JS.isNaN text = false ->
  let w' := exec (handlePaste text) w in
  totp (state w') = text /\
  onSubmit_calls w' = onSubmit_calls w ++ [text] /\
  toasts w' = toasts w.
Proof.
  intros Hlen Hnum w'. subst w'.
  assert (Hnan : JS.isNaN text = false)
    by (destruct Hnum as [Hdig | Hnan]; [now apply isNaN_digits | exact Hnan]).
  destruct (handlePaste_accepted text w) as (Ht & Hc & _ & Hto & _).
  - unfold paste_refused. rewrite Hnan, orb_false_r.
    apply Nat.ltb_ge. exact Hlen.
  - auto.
Qed.

Lemma handlePaste_valid_is_submitted_witness :
  let w := exec (keystrokes (JS.lit "45"))
             (mounted {| type := Login; secretUrl := None; show := Some true |}) in
  let text := JS.lit "123" in
  totp (state w) = JS.lit "45" /\
  length text <= 6 /\
  (forallb JS.isDecimalDigit text = true \/ JS.isNaN text = false) /\
  totp (state (exec (handlePaste text) w)) = text /\
  onSubmit_calls (exec (handlePaste text) w) = onSubmit_calls w ++ [text] /\
  toasts (exec (handlePaste text) w) = toasts w.
Proof.
  intros w text.
  split; [reflexivity|]. split; [cbn; lia|]. split; [left; reflexivity|].
  apply (handlePaste_valid_is_submitted text w); [cbn; lia | left; reflexivity].
Defined.

(** C9.  The empty text passes the test of the paste handler
    ([Number("")] is [0]): no warning, the code-in-progress becomes the
    empty string and [onSubmit] is called once, with the empty string. *)
Theorem handlePaste_empty_is_submitted (w : World) :
  paste_refused [] = false /\
  let w' := exec (handlePaste []) w in
  totp (state w') = [] /\
  onSubmit_calls w' = onSubmit_calls w ++ [[]] /\
  toasts w' = toasts w.
Proof.
  split; [reflexivity|]. intros w'. subst w'.
  destruct (handlePaste_accepted [] w eq_refl) as (Ht & Hc & _ & Hto & _).
  auto.
Qed.

(* ================================================================= *)
(** ** Submission *)

(** C4.  A submission calls [onSubmit] and leaves the component as it is.
    When its promise resolves to [false], the code-in-progress is emptied
    and cell 0, now the enabled cell, takes the focus; when it resolves to
    [true] nothing changes. *)
Theorem handleSubmit_settles (code : JS.str) (w : World) :
  (let w1 := exec (handleSubmit code) w in
   state w1 = state w /\ activeCell w1 = activeCell w /\
   onSubmit_calls w1 = onSubmit_calls w ++ [code]) /\
  forall w2 : World,
    (let w3 := exec (handleSubmit_resume false) w2 in
     totp (state w3) = [] /\
     activeCell w3 = Some 0 /\
     enabled_cell (state w3) = Some 0 /\
     onSubmit_calls w3 = onSubmit_calls w2) /\
    exec (handleSubmit_resume true) w2 = w2.
Proof.
  split; [cbn; auto|]. intros w2. split; [|reflexivity].
  cbn. auto.
Qed.

(* ================================================================= *)
(** ** The [show] prop and the modal widget *)

(** C8, with the case where the code departs from it.  Once [this.modal] is
    assigned, an update in which [show] became truthy makes one call of the
    widget's [show], one in which it became falsy makes one call of its
    [hide], and one that leaves its truthiness unchanged makes no call.
    Before [this.modal] is assigned (the import of the widget has not
    resolved), an update that changes the truthiness of [show] throws a
    [TypeError] and calls neither method. *)
Theorem componentDidUpdate_show (prevProps : TotpModalProps) (w : World) :
  let r := fst (componentDidUpdate prevProps w) in
  let w' := exec (componentDidUpdate prevProps) w in
  (modal_assigned w = true ->
   r = Normal /\
   (truthy (show prevProps) = false -> truthy (show (props w)) = true ->
    modal_calls w' = modal_calls w ++ [ModalShow]) /\
   (truthy (show prevProps) = true -> truthy (show (props w)) = false ->
    modal_calls w' = modal_calls w ++ [ModalHide]) /\
   (truthy (show prevProps) = truthy (show (props w)) -> w' = w)) /\
  (modal_assigned w = false ->
   (truthy (show prevProps) = truthy (show (props w)) ->
    r = Normal /\ w' = w) /\
   (truthy (show prevProps) <> truthy (show (props w)) ->
    r = Throws_TypeError /\ w' = w)).
Proof.
  unfold componentDidUpdate, exec, bind, getProps, modal_call, ret.
  cbn [fst snd].
  split; intros Hmodal;
    destruct (truthy (show prevProps)), (truthy (show (props w))); cbn;
    rewrite ?Hmodal; cbn; repeat split; intros; congruence.
Qed.

Lemma componentDidUpdate_show_witness :
  let hidden := {| type := Login; secretUrl := None; show := None |} in
  let shown := {| type := Login; secretUrl := None; show := Some true |} in
  (modal_assigned (mounted shown) = true /\
   modal_calls (exec (componentDidUpdate shown) (set_props hidden (mounted shown)))
   = modal_calls (mounted shown) ++ [ModalHide]) /\
  (modal_assigned (set_props shown (created hidden)) = false /\
   truthy (show hidden) <> truthy (show shown) /\
   fst (componentDidUpdate hidden (set_props shown (created hidden)))
   = Throws_TypeError /\
   modal_calls (exec (componentDidUpdate hidden) (set_props shown (created hidden)))
   = []).
Proof.
  intros hidden shown. split.
  - split; [reflexivity|].
    destruct (componentDidUpdate_show shown (set_props hidden (mounted shown)))
      as (Hbuilt & _).
    destruct (Hbuilt eq_refl) as (_ & _ & Hhide & _).
    exact (Hhide eq_refl eq_refl).
  - split; [reflexivity|]. split; [discriminate|].
    destruct (componentDidUpdate_show hidden (set_props shown (created hidden)))
      as (_ & Hunbuilt).
    destruct (Hunbuilt eq_refl) as (_ & Hthrow).
    destruct (Hthrow ltac:(discriminate)) as (Hr & Hw).
    split; [exact Hr | now rewrite Hw].
Defined.

(* ================================================================= *)
(** ** Backspace *)

Example slice_drops_last :
  JS.slice (JS.lit "1234") 0 (4 - 1) = JS.lit "123".
Proof. reflexivity. Qed.

Example slice_of_empty : JS.slice [] 0 (0 - 1) = [].
Proof. reflexivity. Qed.

Lemma slice_length s a b : length (JS.slice s a b) <= length s.
Proof.
  unfold JS.slice. rewrite length_firstn, length_skipn. lia.
Qed.

Lemma handleKeyUp_totp i k w :
  let w' := exec (handleKeyUp i k) w in
  totp (state w') = totp (state w) \/
  totp (state w')
  = JS.slice (totp (state w)) 0 (Z.of_nat (length (totp (state w))) - 1).
Proof.
  unfold handleKeyUp.
  destruct (JS.eqb k (JS.lit "Backspace") && (0 <? i)); [|now left].
  right. unfold exec, bind, setState, focus, ret.
  cbn -[render JS.slice]. focus_cases; reflexivity.
Qed.

(* ================================================================= *)
(** ** The shown event and the reachable states *)

Lemma handleShow_totp w :
  totp (state (exec handleShow w)) = totp (state w).
Proof.
  destruct (focus_frame 0 w) as (Hp & Hst & _).
  unfold handleShow, exec, bind, getProps in *.
  destruct (focus 0 w) as [u w0]. cbn [fst snd] in *.
  destruct (type (props w0)); cbn; now rewrite Hst.
Qed.

Lemma handleShow_imported_state resolved w :
  state (exec (handleShow_imported resolved) w) = state w.
Proof. now destruct resolved. Qed.

Lemma componentDidMount_state w :
  state (exec componentDidMount w) = state w.
Proof.
  unfold componentDidMount, exec, bind, getProps, assign_modal, modal_call, ret.
  cbn. now destruct (truthy (show (props w))).
Qed.

Lemma componentDidMount_assigns w :
  modal_assigned (exec componentDidMount w) = true.
Proof.
  unfold componentDidMount, exec, bind, getProps, assign_modal, modal_call, ret.
  cbn. now destruct (truthy (show (props w))).
Qed.

Lemma componentDidUpdate_state prevProps w :
  state (exec (componentDidUpdate prevProps) w) = state w.
Proof.
  unfold componentDidUpdate, exec, bind, getProps, modal_call, ret. cbn.
  destruct (negb _); [|reflexivity].
  destruct (truthy _), (modal_assigned w); reflexivity.
Qed.

Section CollaboratorFacts.

Variable getSVG : option JS.str -> option (list N).
Variable createObjectURL : nat -> list N -> JS.str.

Lemma handleShow_settled_totp arg w :
  totp (state (exec (handleShow_settled getSVG createObjectURL arg) w))
  = totp (state w).
Proof.
  unfold handleShow_settled. now destruct (getSVG arg).
Qed.

(** The instance is reachable once [componentDidMount] has completed. *)
Lemma reachable_mounted p : reachable getSVG createObjectURL (mounted p).
Proof.
  apply reachable_step with (w := created p) (e := Imported);
    [apply reachable_created | reflexivity].
Qed.

(** The length half of the invariant of the code-in-progress holds in
    every reachable state. *)
Lemma reachable_totp_length w :
  reachable getSVG createObjectURL w ->
  length (totp (state w)) <= TOTP_LENGTH.
Proof.
  induction 1 as [p | w e w' Hreach IH Hstep].
  - cbn. lia.
  - destruct e as [i v | i k | text | b | | | next | | resolved | j];
      unfold dispatch in Hstep.
    + destruct (nth_error (render (state w)) i) as [cell|] eqn:Hcell;
        [|discriminate].
      apply nth_error_render_inv in Hcell as [Hi ->].
      cbn [disabled render_cell] in Hstep. rewrite negb_involutive in Hstep.
      destruct (length (totp (state w)) =? i) eqn:Hen; [|discriminate].
      destruct (length v <=? 1) eqn:Hv; [|discriminate].
      injection Hstep as <-.
      apply Nat.eqb_eq in Hen. apply Nat.leb_le in Hv.
      destruct (JS.isNaN v) eqn:Hnan.
      * unfold exec. now rewrite (handleInput_reject i v w Hnan).
      * destruct (handleInput_accept i v w Hnan) as (Hst & _).
        rewrite Hst. cbn. rewrite length_app. lia.
    + destruct (i <? TOTP_LENGTH); [|discriminate].
      injection Hstep as <-.
      destruct (handleKeyUp_totp i k w) as [-> | ->]; [exact IH|].
      etransitivity; [apply slice_length | exact IH].
    + injection Hstep as <-.
      destruct (paste_refused text) eqn:Hp.
      * destruct (handlePaste_refused text w Hp) as (-> & _). cbn. lia.
      * destruct (handlePaste_accepted text w Hp) as (-> & _).
        unfold paste_refused in Hp. apply orb_false_iff in Hp as [Hp _].
        now apply Nat.ltb_ge in Hp.
    + destruct (0 <? awaiting w); [|discriminate].
      injection Hstep as <-. destruct b; cbn; [exact IH | lia].
    + injection Hstep as <-. now rewrite handleShow_totp.
    + injection Hstep as <-. cbn. lia.
    + injection Hstep as <-. now rewrite componentDidUpdate_state.
    + destruct (modal_assigned w); [discriminate|].
      injection Hstep as <-. now rewrite componentDidMount_state.
    + destruct (0 <? imports_pending w); [|discriminate].
      injection Hstep as <-. now rewrite handleShow_imported_state.
    + destruct (nth_error (getSVG_pending w) j) as [arg|]; [|discriminate].
      injection Hstep as <-. now rewrite handleShow_settled_totp.
Qed.

(** C6, at an input where the code departs from it.  Pasting [1e3] into
    the freshly mounted modal leads to a reachable state whose
    code-in-progress holds a character that is no decimal digit. *)
Theorem reachable_totp_not_digits (p : TotpModalProps) :
  let w := exec (handlePaste (JS.lit "1e3")) (mounted p) in
  reachable getSVG createObjectURL w /\
  totp (state w) = JS.lit "1e3" /\
  forallb JS.isDecimalDigit (totp (state w)) = false.
Proof.
  intros w. split.
  - apply reachable_step with (w := mounted p) (e := Paste (JS.lit "1e3"));
      [apply reachable_mounted | reflexivity].
  - destruct (handlePaste_accepted (JS.lit "1e3") (mounted p) eq_refl)
      as (Ht & _).
    subst w. rewrite Ht. split; reflexivity.
Qed.

End CollaboratorFacts.

(** C10.  In [generate] mode the shown event goes on to the QR generation
    whether [secretUrl] is provided or not: no test of the prop guards the
    branch.  Once the QR module is imported the generator is called with
    [this.props.secretUrl] as it is, [undefined] included.  What becomes of
    the activation is what the generator does with that argument: if its
    promise resolves the image source is set, if it is rejected the
    activation is rejected and nothing is set.  With a [secretUrl] this is
    fixed by what the generator does with strings, which is all its
    declaration covers; without one it is not: two generators that agree on
    every string can end the activation differently. *)
Theorem handleShow_generate_uses_secretUrl
    (getSVG : option JS.str -> option (list N))
    (createObjectURL : nat -> list N -> JS.str) (w : World) :
  type (props w) = Generate ->
  (fst (handleShow w) = Suspended /\
   imports_pending (exec handleShow w) = S (imports_pending w)) /\
  (forall w2,
     fst (handleShow_imported true w2) = Suspended /\
     getSVG_calls (exec (handleShow_imported true) w2)
     = getSVG_calls w2 ++ [secretUrl (props w2)] /\
     getSVG_pending (exec (handleShow_imported true) w2)
     = getSVG_pending w2 ++ [secretUrl (props w2)]) /\
  (forall arg w3,
     match getSVG arg with
     | Some buffer =>
         fst (handleShow_settled getSVG createObjectURL arg w3) = Fulfilled /\
         qrCode (state (exec (handleShow_settled getSVG createObjectURL arg) w3))
         = Some (createObjectURL (objectURLs w3) buffer)
     | None =>
         handleShow_settled getSVG createObjectURL arg w3 = (Rejected, w3)
     end) /\
  (forall getSVG' url w3,
     getSVG' (Some url) = getSVG (Some url) ->
     handleShow_settled getSVG' createObjectURL (Some url) w3
     = handleShow_settled getSVG createObjectURL (Some url) w3) /\
  (forall w3, exists g1 g2 : option JS.str -> option (list N),
     (forall url, g1 (Some url) = g2 (Some url)) /\
     fst (handleShow_settled g1 createObjectURL None w3)
     <> fst (handleShow_settled g2 createObjectURL None w3)).
Proof.
  intros Hty. split; [|split; [|split; [|split]]].
  - destruct (focus_keeps 0 w) as [a Ha].
    unfold handleShow, exec, bind, getProps, await_import, ret.
    destruct (focus 0 w) as [u w0]. cbn [snd] in Ha. subst w0. cbn.
    rewrite Hty. cbn. auto.
  - intros w2. cbn. auto.
  - intros arg w3. unfold handleShow_settled.
    destruct (getSVG arg) as [buffer|]; cbn; auto.
  - intros getSVG' url w3 Hagree. unfold handleShow_settled.
    now rewrite Hagree.
  - intros w3.
    exists (fun _ => None),
           (fun arg => match arg with Some _ => None | None => Some [] end).
    split; [reflexivity|]. cbn. discriminate.
Qed.

Lemma handleShow_generate_uses_secretUrl_witness :
  let getSVG := fun arg : option JS.str => arg in
  let createObjectURL := fun (n : nat) (blob : list N) => N.of_nat n :: blob in
  let w := mounted {| type := Generate; secretUrl := None; show := Some true |} in
  type (props w) = Generate /\
  fst (handleShow w) = Suspended /\
  getSVG_calls (exec (handleShow_imported true) (exec handleShow w)) = [None] /\
  handleShow_settled getSVG createObjectURL None
    (exec (handleShow_imported true) (exec handleShow w))
  = (Rejected, exec (handleShow_imported true) (exec handleShow w)).
Proof.
  intros getSVG createObjectURL w. split; [reflexivity|].
  destruct (handleShow_generate_uses_secretUrl getSVG createObjectURL w eq_refl)
    as ((Hs1 & _) & Hs2 & Hs3 & _).
  split; [exact Hs1|].
  split; [exact (proj1 (proj2 (Hs2 (exec handleShow w))))|].
  exact (Hs3 None (exec (handleShow_imported true) (exec handleShow w))).
Defined.

(* ================================================================= *)
(** ** More on the key-up and input handlers *)

Lemma eqb_eq s : forall t, JS.eqb s t = true <-> s = t.
Proof.
  induction s as [|a s IH]; intros [|b t]; simpl;
    try (split; intros; (reflexivity || discriminate)).
  rewrite andb_true_iff, N.eqb_eq, IH. split.
  - intros [-> ->]. reflexivity.
  - intros [= -> ->]. auto.
Qed.

(** [s.slice(0, s.length - 1)] is [s] without its last code unit, and the
    empty string when [s] is empty. *)
Lemma slice_removelast s :
  JS.slice s 0 (Z.of_nat (length s) - 1) = removelast s.
Proof.
  unfold JS.slice, JS.relative_index.
  rewrite removelast_firstn_len.
  replace (0 <? 0)%Z with false by reflexivity.
  rewrite Z.min_l by lia. cbn [Z.to_nat skipn].
  destruct (Z.ltb_spec (Z.of_nat (length s) - 1) 0) as [Hneg | Hpos].
  - replace (length s) with 0 by lia. reflexivity.
  - rewrite Z.min_l by lia. f_equal. lia.
Qed.

Lemma removelast_length (s : JS.str) : length (removelast s) = pred (length s).
Proof.
  rewrite removelast_firstn_len, length_firstn. lia.
Qed.

(** Backspace released in a cell other than cell 0 suppresses the default
    action and removes the last character of the code-in-progress, touching
    neither the calls of [onSubmit] nor the toasts; when the cell is the
    enabled one, the cell before it becomes the enabled cell and takes the
    focus. *)
Theorem handleKeyUp_backspace (i : nat) (w : World) :
  0 < i ->
  let w' := exec (handleKeyUp i (JS.lit "Backspace")) w in
  fst (handleKeyUp i (JS.lit "Backspace") w) = true /\
  totp (state w') = removelast (totp (state w)) /\
  qrCode (state w') = qrCode (state w) /\
  onSubmit_calls w' = onSubmit_calls w /\
  toasts w' = toasts w /\
  (i < TOTP_LENGTH -> length (totp (state w)) = i ->
   activeCell w' = Some (i - 1) /\ enabled_cell (state w') = Some (i - 1)).
Proof.
  intros Hi w'. subst w'. unfold handleKeyUp.
  replace (0 <? i) with true by (symmetry; now apply Nat.ltb_lt).
  replace (JS.eqb (JS.lit "Backspace") (JS.lit "Backspace")) with true
    by reflexivity.
  cbn [andb]. unfold exec, bind, setState, focus, ret.
  cbn -[render JS.slice TOTP_LENGTH]. rewrite slice_removelast.
  set (st' := with_totp (removelast (totp (state w))) (state w)).
  assert (Hlen' : length (totp st') = pred (length (totp (state w))))
    by apply removelast_length.
  split; [reflexivity|].
  repeat split; try (focus_cases; reflexivity).
  - rewrite nth_error_render by lia. cbn [disabled render_cell].
    rewrite Hlen'. replace (pred (length (totp (state w))) =? i - 1) with true
      by (symmetry; apply Nat.eqb_eq; lia).
    reflexivity.
  - rewrite nth_error_render by lia. cbn [disabled render_cell].
    rewrite Hlen'. replace (pred (length (totp (state w))) =? i - 1) with true
      by (symmetry; apply Nat.eqb_eq; lia).
    cbn [negb state set_activeCell]. fold st'.
    replace (i - 1) with (length (totp st')) by lia.
    apply enabled_cell_next. lia.
Qed.

Lemma handleKeyUp_backspace_witness :
  let w := exec (keystrokes (JS.lit "123"))
             (mounted {| type := Login; secretUrl := None; show := Some true |}) in
  0 < 3 /\
  totp (state (exec (handleKeyUp 3 (JS.lit "Backspace")) w)) = JS.lit "12" /\
  activeCell (exec (handleKeyUp 3 (JS.lit "Backspace")) w) = Some 2.
Proof.
  intros w. split; [lia|].
  destruct (handleKeyUp_backspace 3 w ltac:(lia)) as (_ & Ht & _ & _ & _ & Hf).
  split; [exact Ht|].
  exact (proj1 (Hf ltac:(unfold TOTP_LENGTH; lia) eq_refl)).
Defined.

(** Any other key, and Backspace in cell 0, is left to the browser: the
    handler changes nothing and does not suppress the default action. *)
Theorem handleKeyUp_ignored (i : nat) (k : JS.str) (w : World) :
  k <> JS.lit "Backspace" \/ i = 0 ->
  handleKeyUp i k w = (false, w).
Proof.
  intros H. unfold handleKeyUp.
  destruct (JS.eqb k (JS.lit "Backspace")) eqn:Hk; [|reflexivity].
  apply eqb_eq in Hk. destruct H as [H | ->]; [contradiction|reflexivity].
Qed.

Lemma handleKeyUp_ignored_witness :
  let w := mounted {| type := Login; secretUrl := None; show := Some true |} in
  handleKeyUp 0 (JS.lit "Backspace") w = (false, w)
  /\ handleKeyUp 4 (JS.lit "Enter") w = (false, w).
Proof.
  intros w. split.
  - apply (handleKeyUp_ignored 0 (JS.lit "Backspace") w). right. reflexivity.
  - apply (handleKeyUp_ignored 4 (JS.lit "Enter") w). left. discriminate.
Defined.

(** Typing a character that is accepted and then releasing Backspace in the
    cell the focus moved to undoes the keystroke: as long as the code was
    not completed, the instance is back where it was, with the focus in
    the cell typed into. *)
Theorem handleInput_then_backspace (i : nat) (c : N) (w : World) :
  JS.isNaN [c] = false ->
  length (totp (state w)) = i ->
  i + 1 < TOTP_LENGTH ->
  exec (handleKeyUp (i + 1) (JS.lit "Backspace")) (exec (handleInput i [c]) w)
  = set_activeCell (Some i) w.
Proof.
  intros Hc Hlen Hi.
  assert (Htyped : exec (handleInput i [c]) w
                   = set_activeCell (Some (i + 1))
                       (exec (setState (with_totp (totp (state w) ++ [c]))) w)).
  { unfold handleInput. rewrite Hc.
    unfold exec, bind, setState, focus, getState, handleSubmit, onSubmit, ret.
    cbn -[render TOTP_LENGTH Nat.leb].
    rewrite nth_error_render by lia. cbn [disabled render_cell totp with_totp].
    rewrite length_app. cbn [length].
    replace (length (totp (state w)) + 1 =? i + 1) with true
      by (symmetry; apply Nat.eqb_eq; lia).
    cbn -[TOTP_LENGTH Nat.leb]. rewrite length_app. cbn [length].
    replace (TOTP_LENGTH <=? length (totp (state w)) + 1) with false
      by (symmetry; apply Nat.leb_gt; lia).
    reflexivity. }
  rewrite Htyped. unfold handleKeyUp.
  replace (0 <? i + 1) with true by (symmetry; apply Nat.ltb_lt; lia).
  replace (JS.eqb (JS.lit "Backspace") (JS.lit "Backspace")) with true
    by reflexivity.
  cbn [andb]. unfold exec, bind, setState, focus, ret.
  cbn -[render JS.slice TOTP_LENGTH].
  rewrite slice_removelast, removelast_last.
  replace (i + 1 - 1) with i by lia.
  rewrite nth_error_render by lia. cbn [disabled render_cell totp with_totp].
  replace (length (totp (state w)) =? i) with true
    by (symmetry; now apply Nat.eqb_eq).
  destruct w as [p [t q] a calls aw ts mc gc n]. reflexivity.
Qed.

Lemma handleInput_then_backspace_witness :
  let w := exec (keystrokes (JS.lit "12"))
             (mounted {| type := Login; secretUrl := None; show := Some true |}) in
  JS.isNaN [55%N] = false /\
  length (totp (state w)) = 2 /\
  2 + 1 < TOTP_LENGTH /\
  exec (handleKeyUp (2 + 1) (JS.lit "Backspace")) (exec (handleInput 2 [55%N]) w)
  = set_activeCell (Some 2) w.
Proof.
  intros w. split; [reflexivity|]. split; [reflexivity|].
  split; [unfold TOTP_LENGTH; lia|].
  apply (handleInput_then_backspace 2 55 w);
    [reflexivity | reflexivity | unfold TOTP_LENGTH; lia].
Defined.

(** *** Which single characters the input handler lets through *)

Lemma NonDecimalIntegerLiteral_single c :
  JS.NonDecimalIntegerLiteral [c] = false.
Proof.
  unfold JS.NonDecimalIntegerLiteral.
  destruct c as [|p]; [reflexivity|].
  do 6 (try destruct p as [p|p|]); reflexivity.
Qed.

Lemma StrUnsignedDecimalLiteral_single c :
  JS.StrUnsignedDecimalLiteral [c] = JS.isDecimalDigit c.
Proof.
  unfold JS.StrUnsignedDecimalLiteral.
  replace (JS.eqb [c] (JS.lit "Infinity")) with false
    by (cbn; now rewrite andb_false_r).
  cbn [orb JS.takeWhile JS.dropWhile].
  destruct (JS.isDecimalDigit c); [reflexivity|].
  destruct c as [|p]; [reflexivity|].
  do 6 (try destruct p as [p|p|]); reflexivity.
Qed.

(** A one-character string is a number exactly when the character is a
    decimal digit or white space. *)
Lemma isNaN_single c :
  JS.isNaN [c] = negb (JS.isDecimalDigit c || JS.isStrWhiteSpaceChar c).
Proof.
  unfold JS.isNaN, JS.StringNumericLiteral, JS.trim. f_equal.
  cbn [JS.dropWhile].
  destruct (JS.isStrWhiteSpaceChar c) eqn:Hws.
  - now rewrite orb_true_r.
  - cbn [rev app JS.dropWhile]. rewrite Hws. cbn [rev app JS.null orb].
    rewrite orb_false_r.
    unfold JS.StrNumericLiteral.
    rewrite NonDecimalIntegerLiteral_single, orb_false_r.
    unfold JS.StrDecimalLiteral.
    destruct (JS.isSign c) eqn:Hsign.
    + destruct (JS.isDecimalDigit c) eqn:Hd; [|reflexivity].
      now rewrite (digit_not_sign _ Hd) in Hsign.
    + apply StrUnsignedDecimalLiteral_single.
Qed.

(** For the one-character values that [maxLength={1}] allows: a character
    that is neither a decimal digit nor white space is rejected and nothing
    changes; a decimal digit or a white-space character is appended to the
    code-in-progress. *)
Theorem handleInput_single_character (i : nat) (c : N) (w : World) :
  (JS.isDecimalDigit c || JS.isStrWhiteSpaceChar c = false ->
   handleInput i [c] w = (true, w)) /\
  (JS.isDecimalDigit c || JS.isStrWhiteSpaceChar c = true ->
   fst (handleInput i [c] w) = false /\
   totp (state (exec (handleInput i [c]) w)) = totp (state w) ++ [c]).
Proof.
  split; intros H.
  - apply handleInput_reject. now rewrite isNaN_single, H.
  - assert (Hnan : JS.isNaN [c] = false) by now rewrite isNaN_single, H.
    destruct (handleInput_accept i [c] w Hnan) as (Hst & _).
    split; [|now rewrite Hst].
    unfold handleInput. rewrite Hnan.
    unfold exec, bind, setState, focus, getState, handleSubmit, onSubmit, ret.
    cbn -[render TOTP_LENGTH Nat.leb].
    now destruct (TOTP_LENGTH <=? _).
Qed.

Lemma handleInput_single_character_witness :
  let w := mounted {| type := Login; secretUrl := None; show := Some true |} in
  handleInput 0 (JS.lit "x") w = (true, w) /\
  totp (state (exec (handleInput 0 (JS.lit "7")) w)) = JS.lit "7".
Proof.
  intros w. split.
  - apply (proj1 (handleInput_single_character 0 120 w)). reflexivity.
  - apply (proj2 (handleInput_single_character 0 55 w)). reflexivity.
Defined.

Lemma nth_error_render_outside st j :
  TOTP_LENGTH <= j -> nth_error (render st) j = None.
Proof. intros Hj. apply nth_error_None. now rewrite render_length. Qed.

(** An accepted character typed into the enabled cell moves the focus to
    the next cell, which is then the enabled one, without any call of
    [onSubmit]; typed into the last cell it completes the code, which is
    submitted, and the focus stays where it is, no cell being enabled. *)
Theorem handleInput_moves_focus (i : nat) (v : JS.str) (w : World) :
  JS.isNaN v = false ->
  length v = 1 ->
  length (totp (state w)) = i ->
  let w' := exec (handleInput i v) w in
  (i + 1 < TOTP_LENGTH ->
   activeCell w' = Some (i + 1) /\
   enabled_cell (state w') = Some (i + 1) /\
   onSubmit_calls w' = onSubmit_calls w) /\
  (i + 1 = TOTP_LENGTH ->
   activeCell w' = activeCell w /\
   enabled_cell (state w') = None /\
   onSubmit_calls w' = onSubmit_calls w ++ [totp (state w) ++ v]).
Proof.
  intros Hv Hone Hlen w'. subst w'.
  destruct (handleInput_accept i v w Hv) as (Hst & Hcalls & _).
  assert (Hlen' : length (totp (state (exec (handleInput i v) w))) = i + 1)
    by (rewrite Hst; cbn; rewrite length_app; lia).
  rewrite length_app, Hone, Hlen in Hcalls.
  assert (Hfocus : activeCell (exec (handleInput i v) w)
                   = if i + 1 <? TOTP_LENGTH then Some (i + 1)
                     else activeCell w).
  { unfold handleInput. rewrite Hv.
    unfold exec, bind, setState, focus, getState, handleSubmit, onSubmit, ret.
    cbn -[render TOTP_LENGTH Nat.leb Nat.ltb].
    destruct (Nat.ltb_spec (i + 1) TOTP_LENGTH) as [Hlt | Hge].
    - rewrite nth_error_render by exact Hlt.
      cbn [disabled render_cell totp with_totp].
      rewrite length_app, Hone, Hlen, Nat.eqb_refl.
      cbn -[TOTP_LENGTH Nat.leb].
      destruct (TOTP_LENGTH <=? length (totp (state w) ++ v)); reflexivity.
    - rewrite nth_error_render_outside by exact Hge.
      cbn -[TOTP_LENGTH Nat.leb].
      destruct (TOTP_LENGTH <=? length (totp (state w) ++ v)); reflexivity. }
  split; intros Hi.
  - replace (i + 1 <? TOTP_LENGTH) with true in Hfocus
      by (symmetry; now apply Nat.ltb_lt).
    replace (TOTP_LENGTH <=? i + 1) with false in Hcalls
      by (symmetry; now apply Nat.leb_gt).
    repeat split; auto.
    rewrite <- Hlen'. apply enabled_cell_next. lia.
  - replace (i + 1 <? TOTP_LENGTH) with false in Hfocus
      by (symmetry; apply Nat.ltb_ge; lia).
    replace (TOTP_LENGTH <=? i + 1) with true in Hcalls
      by (symmetry; apply Nat.leb_le; lia).
    repeat split; auto.
    apply enabled_cell_full. lia.
Qed.

Lemma handleInput_moves_focus_witness :
  let w := exec (keystrokes (JS.lit "12345"))
             (mounted {| type := Login; secretUrl := None; show := Some true |}) in
  JS.isNaN (JS.lit "6") = false /\
  length (JS.lit "6") = 1 /\
  length (totp (state w)) = 5 /\
  activeCell (exec (handleInput 5 (JS.lit "6")) w) = activeCell w /\
  onSubmit_calls (exec (handleInput 5 (JS.lit "6")) w)
  = onSubmit_calls w ++ [JS.lit "123456"].
Proof.
  intros w. split; [reflexivity|]. split; [reflexivity|]. split; [reflexivity|].
  destruct (handleInput_moves_focus 5 (JS.lit "6") w eq_refl eq_refl eq_refl)
    as (_ & Hlast).
  destruct (Hlast eq_refl) as (Hf & _ & Hc). split; [exact Hf | exact Hc].
Defined.

(* ================================================================= *)
(** ** More on the paste handler *)

(** What a refused paste does.  A text longer than six code units, or one
    for which [Number] gives [NaN], is not submitted: the default insertion
    is suppressed, the warning is shown once, the code-in-progress is
    emptied, so that cell 0 is the enabled cell, and the focus is not
    moved there. *)
Theorem handlePaste_refusal (text : JS.str) (w : World) :
  TOTP_LENGTH < length text \/ JS.isNaN text = true ->
  let w' := exec (handlePaste text) w in
  fst (handlePaste text w) = true /\
  totp (state w') = [] /\
  enabled_cell (state w') = Some 0 /\
  activeCell w' = activeCell w /\
  onSubmit_calls w' = onSubmit_calls w /\
  awaiting w' = awaiting w /\
  toasts w' = toasts w ++ [(JS.lit "Invalid TOTP: Must be string of six digits",
                            JS.lit "danger")].
Proof.
  intros H w'. subst w'.
  assert (Hguard : (TOTP_LENGTH <? length text) || JS.isNaN text = true).
  { destruct H as [H | H]; [apply Nat.ltb_lt in H | ]; rewrite H;
      [reflexivity | apply orb_true_r]. }
  unfold handlePaste. rewrite Hguard. cbn. auto 10.
Qed.

Lemma handlePaste_refusal_witness :
  let w := exec (keystrokes (JS.lit "45"))
             (mounted {| type := Login; secretUrl := None; show := Some true |}) in
  (TOTP_LENGTH < length (JS.lit "12a456") \/ JS.isNaN (JS.lit "12a456") = true) /\
  totp (state (exec (handlePaste (JS.lit "12a456")) w)) = [] /\
  activeCell (exec (handlePaste (JS.lit "12a456")) w) = Some 2 /\
  onSubmit_calls (exec (handlePaste (JS.lit "12a456")) w) = [].
Proof.
  intros w. split; [right; reflexivity|].
  destruct (handlePaste_refusal (JS.lit "12a456") w (or_intror eq_refl))
    as (_ & Ht & _ & Hf & Hc & _).
  split; [exact Ht|]. split; [exact Hf | exact Hc].
Defined.

(* ================================================================= *)
(** ** What each handler leaves alone *)

Ltac run_handler :=
  unfold handleInput, handleKeyUp, handlePaste, handleSubmit_resume,
    clearTotp, componentDidUpdate, componentDidMount, handleSubmit,
    exec, bind, setState, focus, getState, getProps, onSubmit, toast,
    modal_call, ret;
  cbn -[render TOTP_LENGTH Nat.leb Nat.ltb JS.isNaN JS.eqb JS.slice];
  repeat match goal with
         | |- context [match nth_error (render ?st) ?j with _ => _ end] =>
             destruct (nth_error (render st) j) as [[? ? []]|]
         | |- context [if ?b then _ else _] => destruct b
         end;
  cbn -[render TOTP_LENGTH Nat.leb Nat.ltb JS.isNaN JS.eqb JS.slice];
  auto 10.

(** *** The calls of the widget *)

Lemma alternates_snoc l : forall next c,
  alternates next (l ++ [c]) <->
  alternates next l /\
  c = (if Nat.even (length l) then next else other_call next).
Proof.
  induction l as [|a l IH]; intros next c; cbn [app alternates length].
  - cbn. tauto.
  - rewrite IH, Nat.even_succ, <- Nat.negb_even.
    destruct (Nat.even (length l)), next; cbn; tauto.
Qed.

Lemma show_requested_snoc l c :
  show_requested (l ++ [c]) = request_after (show_requested l) c.
Proof. unfold show_requested. now rewrite fold_left_app. Qed.

Lemma show_requested_alternates l :
  alternates ModalShow l -> show_requested l = Nat.odd (length l).
Proof.
  induction l as [|c l IH] using rev_ind; [reflexivity|].
  rewrite alternates_snoc. intros [Hl ->].
  rewrite show_requested_snoc, length_app, Nat.add_1_r, Nat.odd_succ.
  now destruct (Nat.even (length l)).
Qed.

(* ================================================================= *)
(** ** Invariants of the reachable states *)



Section ReachableFacts.

Variable getSVG : option JS.str -> option (list N).
Variable createObjectURL : nat -> list N -> JS.str.

(** Which part of the world an event can change: only an update of the
    props and the end of the mount touch the props and the widget, only the
    continuations of [handleShow] touch the image source and the calls of
    the generator, only a paste shows a toast, only input and paste call
    [onSubmit]. *)
Lemma dispatch_frame e w w' :
  dispatch getSVG createObjectURL e w = Some w' ->
  (match e with Update _ | Imported => True | _ => same_widget w w' end) /\
  (match e with
   | QrImported _ | SvgSettled _ => True
   | _ => same_image w w'
   end) /\
  (match e with Paste _ => True | _ => toasts w' = toasts w end) /\
  (match e with
   | Input _ _ | Paste _ => True
   | _ => onSubmit_calls w' = onSubmit_calls w
   end).
Proof.
  unfold dispatch, same_widget, same_image.
  destruct e as [i v | i k | text | b | | | next | | resolved | j];
    intros Hstep.
  - destruct (nth_error (render (state w)) i) as [cell|]; [|discriminate].
    destruct (negb (disabled cell) && (length v <=? 1)); [|discriminate].
    injection Hstep as <-. run_handler.
  - destruct (i <? TOTP_LENGTH); [|discriminate].
    injection Hstep as <-. run_handler.
  - injection Hstep as <-. run_handler.
  - destruct (0 <? awaiting w); [|discriminate].
    injection Hstep as <-. destruct b; run_handler.
  - injection Hstep as <-.
    destruct (focus_keeps 0 w) as [a Ha].
    unfold handleShow, exec, bind, getProps, await_import, ret.
    destruct (focus 0 w) as [u w0]. cbn [snd] in Ha. subst w0. cbn.
    destruct (type (props w)); cbn; auto 10.
  - injection Hstep as <-. cbn. auto 10.
  - injection Hstep as <-. unfold set_props. run_handler.
  - destruct (modal_assigned w); [discriminate|].
    injection Hstep as <-. unfold assign_modal. run_handler.
  - destruct (0 <? imports_pending w); [|discriminate].
    injection Hstep as <-. destruct resolved; cbn; auto 10.
  - destruct (nth_error (getSVG_pending w) j) as [arg|]; [|discriminate].
    injection Hstep as <-. unfold handleShow_settled.
    destruct (getSVG arg); cbn; auto 10.
Qed.

(** The component never hands [onSubmit] a candidate of more than six code
    units. *)
Theorem reachable_submissions_bounded (w : World) :
  reachable getSVG createObjectURL w ->
  Forall (fun code => length code <= TOTP_LENGTH) (onSubmit_calls w).
Proof.
  induction 1 as [p | w e w' Hreach IH Hstep].
  - constructor.
  - pose proof (reachable_totp_length _ _ _ Hreach) as Hlen.
    destruct (dispatch_frame e w w' Hstep) as (_ & _ & _ & Hcalls).
    destruct e as [i v | i k | text | b | | | next | | resolved | j];
      try (rewrite Hcalls; exact IH).
    + cbn -[render] in Hstep.
      destruct (nth_error (render (state w)) i) as [cell|] eqn:Hcell;
        [|discriminate].
      apply nth_error_render_inv in Hcell as [Hi ->].
      cbn [disabled render_cell] in Hstep. rewrite negb_involutive in Hstep.
      destruct (length (totp (state w)) =? i) eqn:Hen; [|discriminate].
      destruct (length v <=? 1) eqn:Hv; [|discriminate].
      injection Hstep as <-.
      apply Nat.eqb_eq in Hen. apply Nat.leb_le in Hv.
      destruct (JS.isNaN v) eqn:Hnan.
      * unfold exec. now rewrite (handleInput_reject i v w Hnan).
      * destruct (handleInput_accept i v w Hnan) as (_ & -> & _).
        destruct (TOTP_LENGTH <=? _); [|exact IH].
        apply Forall_app. split; [exact IH|].
        constructor; [|constructor]. rewrite length_app. lia.
    + injection Hstep as <-.
      destruct (paste_refused text) eqn:Hp.
      * destruct (handlePaste_refused text w Hp) as (_ & -> & _). exact IH.
      * destruct (handlePaste_accepted text w Hp) as (_ & -> & _).
        apply Forall_app. split; [exact IH|].
        constructor; [|constructor].
        unfold paste_refused in Hp. apply orb_false_iff in Hp as [Hp _].
        now apply Nat.ltb_ge in Hp.
Qed.

(** The calls made to the widget follow the [show] prop from the moment
    [componentDidMount] has completed.  As long as [this.modal] is not
    assigned no call reaches the widget.  Once it is assigned, the last
    call made is [show()] when the prop is truthy and [hide()], or none at
    all, when it is falsy; and [show()] and [hide()] are called in turn,
    starting with [show()], never twice in a row. *)
Theorem reachable_modal_calls_follow_show (w : World) :
  reachable getSVG createObjectURL w ->
  (modal_assigned w = false -> modal_calls w = []) /\
  (modal_assigned w = true ->
   alternates ModalShow (modal_calls w) /\
   show_requested (modal_calls w) = truthy (show (props w))).
Proof.
  induction 1 as [p | w e w' Hreach [IHno IHyes] Hstep].
  - split; [reflexivity | discriminate].
  - destruct (dispatch_frame e w w' Hstep) as (Hwidget & _).
    destruct e as [i v | i k | text | b | | | next | | resolved | j];
      try (destruct Hwidget as (-> & -> & ->); auto).
    + injection Hstep as <-.
      unfold componentDidUpdate, exec, bind, getProps, set_props, modal_call, ret.
      cbn -[truthy show_requested alternates].
      destruct (modal_assigned w) eqn:Hmodal.
      * destruct (IHyes eq_refl) as [IHalt IHshown].
        pose proof (show_requested_alternates _ IHalt) as Hodd.
        split; [destruct (negb _); [destruct (truthy (show next))|];
                cbn; congruence|].
        intros _. rewrite <- IHshown.
        destruct (show_requested (modal_calls w)) eqn:Hw,
                 (truthy (show next)) eqn:Hn;
          cbn -[truthy show_requested alternates];
          rewrite ?alternates_snoc, ?show_requested_snoc, <- ?Nat.negb_odd,
            <- ?Hodd, ?Hw, ?Hn;
          cbn; auto.
      * pose proof (IHno eq_refl) as Hnil.
        destruct (negb _); [destruct (truthy (show next))|];
          cbn; rewrite ?Hmodal; cbn; split; congruence.
    + unfold dispatch in Hstep.
      destruct (modal_assigned w) eqn:Hmodal; [discriminate|].
      injection Hstep as <-. pose proof (IHno eq_refl) as Hnil.
      unfold componentDidMount, exec, bind, getProps, assign_modal,
        modal_call, ret.
      cbn -[truthy show_requested alternates]. rewrite Hnil.
      destruct (truthy (show (props w))) eqn:Hs;
        cbn -[truthy]; rewrite ?Hs; split; (discriminate || auto).
Qed.



Lemma render_values st :
  concat (map value (render st)) = firstn TOTP_LENGTH (totp st).
Proof.
  unfold render, render_cell. cbn.
  destruct (totp st) as [|c0 [|c1 [|c2 [|c3 [|c4 [|c5 r]]]]]]; reflexivity.
Qed.

(** The grid displays the code-in-progress: in every reachable state the
    values of the six cells, read from left to right, spell the code. *)
Theorem reachable_render_shows_code (w : World) :
  reachable getSVG createObjectURL w ->
  concat (map value (render (state w))) = totp (state w).
Proof.
  intros Hreach. rewrite render_values.
  apply firstn_all2. exact (reachable_totp_length _ _ _ Hreach).
Qed.

(** Closing and opening the dialog again gives an empty grid with the focus
    in cell 0, the enabled cell, whatever had been entered and whatever the
    mode is; and the grid stays so when the QR generation started by the
    shown event goes on, however its import and the generator end. *)
Theorem hidden_then_shown_resets_grid (w : World) :
  let w' := exec handleShow (exec clearTotp w) in
  (totp (state w') = [] /\
   activeCell w' = Some 0 /\
   enabled_cell (state w') = Some 0) /\
  forall resolved arg,
    let w'' := exec (handleShow_settled getSVG createObjectURL arg)
                 (exec (handleShow_imported resolved) w') in
    totp (state w'') = [] /\
    activeCell w'' = Some 0 /\
    enabled_cell (state w'') = Some 0.
Proof.
  unfold handleShow, handleShow_imported, handleShow_settled, await_import,
    call_getSVG, call_createObjectURL, clearTotp,
    exec, bind, setState, focus, getProps, ret.
  cbn. split.
  - destruct (type (props w)); cbn; auto.
  - intros resolved arg.
    destruct (type (props w)), resolved, (getSVG arg); cbn; auto.
Qed.

End ReachableFacts.

(** In the [login] and [remove] modes the shown event only moves the focus:
    the activation ends at once, the QR module is not imported, the
    generator is not called, no object URL is created and the state is left
    as it is. *)
Theorem handleShow_other_modes (w : World) :
  type (props w) <> Generate ->
  handleShow w = (Fulfilled, exec (focus 0) w) /\
  state (exec handleShow w) = state w /\
  getSVG_calls (exec handleShow w) = getSVG_calls w /\
  objectURLs (exec handleShow w) = objectURLs w /\
  imports_pending (exec handleShow w) = imports_pending w.
Proof.
  intros Hty.
  destruct (focus_keeps 0 w) as [a Ha].
  unfold handleShow, exec, bind, getProps, await_import, ret in *.
  destruct (focus 0 w) as [u w0]. cbn [fst snd] in *. subst w0. cbn.
  destruct (type (props w)); [| |contradiction]; cbn; auto 10.
Qed.

Lemma reachable_after_paste getSVG createObjectURL p text :
  reachable getSVG createObjectURL (exec (handlePaste text) (mounted p)).
Proof.
  apply reachable_step with (w := mounted p) (e := Paste text);
    [apply reachable_mounted | reflexivity].
Qed.

Lemma reachable_submissions_bounded_witness :
  let getSVG := fun arg : option JS.str => arg in
  let createObjectURL := fun (n : nat) (blob : list N) => N.of_nat n :: blob in
  let w := exec (handlePaste (JS.lit "123"))
             (mounted {| type := Login; secretUrl := None; show := Some true |}) in
  reachable getSVG createObjectURL w /\
  onSubmit_calls w = [JS.lit "123"] /\
  Forall (fun code => length code <= TOTP_LENGTH) (onSubmit_calls w).
Proof.
  intros getSVG createObjectURL w.
  assert (Hr : reachable getSVG createObjectURL w)
    by apply reachable_after_paste.
  split; [exact Hr|]. split; [reflexivity|].
  exact (reachable_submissions_bounded getSVG createObjectURL w Hr).
Defined.

Lemma reachable_modal_calls_follow_show_witness :
  let getSVG := fun arg : option JS.str => arg in
  let createObjectURL := fun (n : nat) (blob : list N) => N.of_nat n :: blob in
  let hidden := {| type := Login; secretUrl := None; show := None |} in
  let shown := {| type := Login; secretUrl := None; show := Some true |} in
  let w := exec (componentDidUpdate hidden) (set_props shown (mounted hidden)) in
  reachable getSVG createObjectURL w /\
  modal_assigned w = true /\
  modal_calls w = [ModalShow] /\
  alternates ModalShow (modal_calls w) /\
  show_requested (modal_calls w) = truthy (show (props w)).
Proof.
  intros getSVG createObjectURL hidden shown w.
  assert (Hr : reachable getSVG createObjectURL w).
  { apply reachable_step with (w := mounted hidden) (e := Update shown);
      [apply reachable_mounted | reflexivity]. }
  split; [exact Hr|]. split; [reflexivity|]. split; [reflexivity|].
  exact (proj2 (reachable_modal_calls_follow_show getSVG createObjectURL w Hr)
           eq_refl).
Defined.



Lemma reachable_render_shows_code_witness :
  let getSVG := fun arg : option JS.str => arg in
  let createObjectURL := fun (n : nat) (blob : list N) => N.of_nat n :: blob in
  let w := exec (handlePaste (JS.lit "123"))
             (mounted {| type := Login; secretUrl := None; show := Some true |}) in
  reachable getSVG createObjectURL w /\
  concat (map value (render (state w))) = totp (state w).
Proof.
  intros getSVG createObjectURL w.
  assert (Hr : reachable getSVG createObjectURL w)
    by apply reachable_after_paste.
  split; [exact Hr|].
  exact (reachable_render_shows_code getSVG createObjectURL w Hr).
Defined.

Lemma handleShow_other_modes_witness :
  let w := mounted {| type := Remove; secretUrl := Some (JS.lit "otpauth://totp/x");
                      show := Some true |} in
  type (props w) <> Generate /\
  state (exec handleShow w) = state w /\
  getSVG_calls (exec handleShow w) = getSVG_calls w.
Proof.
  intros w.
  assert (Hty : type (props w) <> Generate) by discriminate.
  split; [exact Hty|].
  destruct (handleShow_other_modes w Hty) as (_ & Hst & Hsvg & _).
  split; [exact Hst | exact Hsvg].
Defined.

(* ================================================================= *)
(** ** Mounting and unmounting *)

Lemma same_listener_eq t l r : same_listener t l r = true <-> r = (t, l).
Proof.
  destruct r as [t' l']. unfold same_listener. cbn [fst snd].
  destruct t, t', l, l'; split; intros H; try discriminate; reflexivity.
Qed.

Lemma existsb_same_listener t l ls :
  existsb (same_listener t l) ls = true <-> In (t, l) ls.
Proof.
  rewrite existsb_exists. split.
  - intros (r & Hin & Hr). apply same_listener_eq in Hr. now subst r.
  - intros Hin. exists (t, l). split; [exact Hin|]. now apply same_listener_eq.
Qed.

Lemma In_addEventListener t l ls r :
  In r (addEventListener t l ls) <-> In r ls \/ r = (t, l).
Proof.
  unfold addEventListener.
  destruct (existsb (same_listener t l) ls) eqn:Hex.
  - apply existsb_same_listener in Hex. split; [auto|].
    intros [H | ->]; assumption.
  - rewrite in_app_iff. cbn. intuition congruence.
Qed.

Lemma In_removeEventListener t l ls r :
  In r (removeEventListener t l ls) <-> In r ls /\ r <> (t, l).
Proof.
  unfold removeEventListener. rewrite filter_In, negb_true_iff.
  rewrite <- same_listener_eq, not_true_iff_false. tauto.
Qed.

Lemma removeEventListener_absent t l ls :
  ~ In (t, l) ls -> removeEventListener t l ls = ls.
Proof.
  unfold removeEventListener. induction ls as [|r ls IH]; intros H; cbn.
  - reflexivity.
  - destruct (same_listener t l r) eqn:Hr.
    + apply same_listener_eq in Hr. subst r. exfalso. apply H. now left.
    + cbn. rewrite IH; [reflexivity|]. intros Hin. apply H. now right.
Qed.

Lemma removeEventListener_added t l ls :
  ~ In (t, l) ls -> removeEventListener t l (ls ++ [(t, l)]) = ls.
Proof.
  intros H. unfold removeEventListener. rewrite filter_app.
  fold (removeEventListener t l ls). rewrite (removeEventListener_absent _ _ _ H).
  cbn. replace (same_listener t l (t, l)) with true
    by (symmetry; now apply same_listener_eq).
  cbn. apply app_nil_r.
Qed.

(** While the component is mounted its two listeners are registered on the
    root element.  Unmounting after the widget was built returns, disposes
    the widget once, and leaves on the element exactly the listeners that
    are not the component's; on a fresh element the listeners are back to
    what they were before the mount. *)
Theorem mount_then_unmount (c : Instance) :
  let hs := (shown_bs_modal, this_handleShow) in
  let ct := (hidden_bs_modal, this_clearTotp) in
  let m := componentDidMount_resume (componentDidMount_listen c) in
  (In hs (listeners m) /\ In ct (listeners m)) /\
  exists c',
    componentWillUnmount m = Returns c' /\
    (forall r, In r (listeners c') <-> In r (listeners c) /\ r <> hs /\ r <> ct) /\
    (~ In hs (listeners c) -> ~ In ct (listeners c) ->
     listeners c' = listeners c) /\
    dispose_calls c' = S (dispose_calls c) /\
    world c' = exec componentDidMount (world c).
Proof.
  intros hs ct m. subst m. split.
  - cbn [listeners componentDidMount_resume componentDidMount_listen].
    rewrite !In_addEventListener. auto.
  - eexists. split.
    { unfold componentWillUnmount, modal_built.
      cbn [world componentDidMount_resume componentDidMount_listen].
      rewrite componentDidMount_assigns. reflexivity. }
    cbn [listeners dispose_calls world componentDidMount_resume
         componentDidMount_listen].
    split; [|split; [|split; reflexivity]].
    + intros r. rewrite !In_removeEventListener, !In_addEventListener.
      fold hs ct. tauto.
    + intros Hhs Hct. fold hs ct.
      unfold addEventListener at 2.
      replace (existsb (same_listener shown_bs_modal this_handleShow)
                 (listeners c)) with false
        by (symmetry; apply not_true_iff_false;
            now rewrite existsb_same_listener).
      unfold addEventListener.
      replace (existsb (same_listener hidden_bs_modal this_clearTotp)
                 (listeners c ++ [(shown_bs_modal, this_handleShow)]))
        with false.
      2:{ symmetry. apply not_true_iff_false.
          rewrite existsb_same_listener, in_app_iff. cbn.
          intros [H | [H | []]]; [now apply Hct | discriminate]. }
      rewrite <- app_assoc.
      unfold removeEventListener at 2. rewrite filter_app.
      fold (removeEventListener shown_bs_modal this_handleShow (listeners c)).
      rewrite (removeEventListener_absent _ _ _ Hhs). cbn [filter app].
      cbn [same_listener fst snd negb].
      now apply removeEventListener_added.
Qed.

Lemma mount_then_unmount_witness :
  let c := constructed {| type := Login; secretUrl := None; show := Some true |} in
  let m := componentDidMount_resume (componentDidMount_listen c) in
  world m = mounted {| type := Login; secretUrl := None; show := Some true |} /\
  exists c',
    componentWillUnmount m = Returns c' /\
    listeners c' = [] /\
    dispose_calls c' = 1.
Proof.
  intros c m. split; [reflexivity|].
  destruct (mount_then_unmount c) as (_ & c' & Hret & _ & Hfresh & Hdisp & _).
  exists c'. split; [exact Hret|]. split; [|exact Hdisp].
  apply Hfresh; intros [].
Defined.

(** Unmounting before the dynamic import has delivered the widget removes
    the two listeners and then fails: [this.modal] is undefined, so the call
    of [dispose] throws a [TypeError] and nothing is disposed. *)
Theorem unmount_before_widget_built (c : Instance) :
  modal_built c = false ->
  exists c',
    componentWillUnmount (componentDidMount_listen c) = TypeError c' /\
    ~ In (shown_bs_modal, this_handleShow) (listeners c') /\
    ~ In (hidden_bs_modal, this_clearTotp) (listeners c') /\
    dispose_calls c' = dispose_calls c /\
    world c' = world c.
Proof.
  intros Hmodal. eexists. unfold componentWillUnmount, modal_built in *.
  cbn [world componentDidMount_listen]. rewrite Hmodal.
  split; [reflexivity|].
  cbn [listeners dispose_calls world componentDidMount_listen].
  rewrite !In_removeEventListener, !In_addEventListener.
  repeat split; tauto.
Qed.

Lemma unmount_before_widget_built_witness :
  let c := constructed {| type := Login; secretUrl := None; show := Some true |} in
  modal_built c = false /\
  exists c',
    componentWillUnmount (componentDidMount_listen c) = TypeError c' /\
    dispose_calls c' = 0.
Proof.
  intros c. split; [reflexivity|].
  destruct (unmount_before_widget_built c eq_refl) as (c' & Hthrow & _ & _ & Hd & _).
  exists c'. split; [exact Hthrow | exact Hd].
Defined.

(* ================================================================= *)
(** ** The code-in-progress fits the grid *)

(** In every reachable state the code-in-progress has at most six code
    units; the cell after the last character is the enabled cell as long as
    there are fewer than six, and no cell is enabled when there are six. *)
Theorem reachable_code_fits_grid
    (getSVG : option JS.str -> option (list N))
    (createObjectURL : nat -> list N -> JS.str)
    (w : World) :
  reachable getSVG createObjectURL w ->
  length (totp (state w)) <= TOTP_LENGTH /\
  enabled_cell (state w)
  = (if length (totp (state w)) <? TOTP_LENGTH
     then Some (length (totp (state w))) else None).
Proof.
  intros Hreach.
  pose proof (reachable_totp_length _ _ _ Hreach) as Hlen.
  split; [exact Hlen|].
  destruct (Nat.ltb_spec (length (totp (state w))) TOTP_LENGTH) as [Hlt | Hge].
  - now apply enabled_cell_next.
  - now apply enabled_cell_full.
Qed.

Lemma reachable_code_fits_grid_witness :
  let getSVG := fun arg : option JS.str => arg in
  let createObjectURL := fun (n : nat) (blob : list N) => N.of_nat n :: blob in
  let w := exec (handlePaste (JS.lit "123456"))
             (mounted {| type := Login; secretUrl := None; show := Some true |}) in
  reachable getSVG createObjectURL w /\
  length (totp (state w)) <= TOTP_LENGTH /\
  enabled_cell (state w) = None.
Proof.
  intros getSVG createObjectURL w.
  assert (Hr : reachable getSVG createObjectURL w)
    by apply reachable_after_paste.
  split; [exact Hr|].
  exact (reachable_code_fits_grid getSVG createObjectURL w Hr).
Defined.
